(** * EDI document reference tool: a shallow embedding of [reference.py]

    The development follows the source file top to bottom: the data
    classes and the literal dataset, the three query/render functions
    ([list_standards], [list_edi_documents], [search_edi_code]) and the
    command dispatch of [main].

    Conventions of the embedding.

    - A Python [str] is a Rocq [string].  The strings the program applies
      [upper], [lower], [isdigit] and [int] to (codes, standard names,
      industry names and the filter texts) are ASCII in the dataset, and
      the embedding gives those four operations their ASCII meaning;
      characters outside ASCII (the bullet and the arrow of the printed
      text) are carried as their UTF-8 bytes and are only ever copied.
      On text with letters or digits outside ASCII Python uses the
      Unicode tables, and [int] refuses a text of digits longer than the
      interpreter's limit; the embedding does not follow it there.  A
      statement that depends on these operations at a text it
      quantifies over therefore carries the hypothesis that the text is
      ASCII ([PyStr.ascii_only]) and, where [int] is applied to it, of
      bounded length ([PyStr.plain_code]).
    - A [dict] is an association list in insertion order, which is the
      order in which Python iterates it.
    - Standard output is the list of the arguments of the successive
      [print] calls (each call ends its text with a line break, which is
      left implicit).
    - A Python function is a computation of type [Py A]: it receives the
      output printed so far and gives back the output extended, together
      with either a returned value or a raised exception.
    - [textwrap.fill] belongs to the Python library, not to the program;
      the rendering functions take it as a parameter [fill], which stands
      for [fun s => fill(s, width=70, subsequent_indent='    ')]. *)

From Stdlib Require Import Bool List Arith ZArith Lia.
From Stdlib Require Import Ascii String DecimalString.
From Stdlib Require Import Permutation Sorted.
Import ListNotations.

Local Open Scope list_scope.
Local Open Scope string_scope.

(* ================================================================= *)
(** ** Python strings *)

Module PyStr.

Definition is_upper (c : ascii) : bool :=
  (("A" <=? c) && (c <=? "Z"))%char.

Definition is_lower (c : ascii) : bool :=
  (("a" <=? c) && (c <=? "z"))%char.

Definition is_digit (c : ascii) : bool :=
  (("0" <=? c) && (c <=? "9"))%char.

Definition lower_char (c : ascii) : ascii :=
  if is_upper c then ascii_of_N (N_of_ascii c + 32) else c.

Definition upper_char (c : ascii) : ascii :=
  if is_lower c then ascii_of_N (N_of_ascii c - 32) else c.

(** [s.lower()] and [s.upper()], on ASCII text *)
Fixpoint lower (s : string) : string :=
  match s with
  | EmptyString => EmptyString
  | String c s' => String (lower_char c) (lower s')
  end.

Fixpoint upper (s : string) : string :=
  match s with
  | EmptyString => EmptyString
  | String c s' => String (upper_char c) (upper s')
  end.

(** [needle in hay], the substring test *)
Fixpoint contains (needle hay : string) : bool :=
  String.prefix needle hay ||
  match hay with
  | EmptyString => false
  | String _ hay' => contains needle hay'
  end.

(** [s.isdigit()] on ASCII text: at least one character, all of them
    digits *)
Fixpoint all_digits (s : string) : bool :=
  match s with
  | EmptyString => true
  | String c s' => is_digit c && all_digits s'
  end.

Definition isdigit (s : string) : bool :=
  match s with
  | EmptyString => false
  | _ => all_digits s
  end.

(** [int(s)] on a string of ASCII digits, most significant digit first.
    Python's [int] raises [ValueError] on other digits and on more
    digits than the interpreter allows; the codes of the statements
    below are kept away from both by [plain_code]. *)
Fixpoint int_from (acc : Z) (s : string) : Z :=
  match s with
  | EmptyString => acc
  | String c s' => int_from (10 * acc + (Z.of_N (N_of_ascii c) - 48)) s'
  end.

Definition int (s : string) : Z := int_from 0 s.

(** [str(n)] for an integer *)
Definition str_of_int (n : Z) : string :=
  NilZero.string_of_int (Z.to_int n).

(** [c * n] for a one-character string *)
Fixpoint repeat_char (c : ascii) (n : nat) : string :=
  match n with
  | O => EmptyString
  | S n' => String c (repeat_char c n')
  end.

(** [sep.join(parts)] *)
Fixpoint join (sep : string) (parts : list string) : string :=
  match parts with
  | [] => ""
  | [p] => p
  | p :: rest => p ++ sep ++ join sep rest
  end.

(** the truth value of an [Optional[str]]: [None] and the empty string
    are false *)
Definition truthy (o : option string) : bool :=
  match o with
  | Some (String _ _) => true
  | _ => false
  end.

(** Two texts that differ only in letter case: the same length, and at
    each position either the same character or the two cases of one
    letter. *)
Inductive char_case_variant : ascii -> ascii -> Prop :=
| ccv_same c : char_case_variant c c
| ccv_lower c : is_upper c = true -> char_case_variant c (lower_char c)
| ccv_upper c : is_upper c = true -> char_case_variant (lower_char c) c.

Inductive case_variant : string -> string -> Prop :=
| cv_nil : case_variant "" ""
| cv_cons c1 c2 s1 s2 :
    char_case_variant c1 c2 -> case_variant s1 s2 ->
    case_variant (String c1 s1) (String c2 s2).

(** ASCII text: every character below 128.  On such text [upper],
    [lower], [isdigit] and [String.length] are Python's [str.upper],
    [str.lower], [str.isdigit] and [len]. *)
Definition is_ascii (c : ascii) : bool := (N_of_ascii c <? 128)%N.

Fixpoint ascii_only (s : string) : bool :=
  match s with
  | EmptyString => true
  | String c s' => is_ascii c && ascii_only s'
  end.

(** The interpreter converts a text of digits to an [int] only up to a
    number of digits that can be configured (4300 unless changed) and
    is never set below 640. *)
Definition max_str_digits : nat := 640.

(** A code on which [isdigit] and [int] are as modelled: ASCII text of
    at most [max_str_digits] characters. *)
Definition plain_code (s : string) : bool :=
  ascii_only s && Nat.leb (String.length s) max_str_digits.

(** an optional text that is ASCII when present *)
Definition ascii_option (o : option string) : bool :=
  match o with
  | Some s => ascii_only s
  | None => true
  end.

End PyStr.

(* ================================================================= *)
(** ** Exceptions, output and the computation type *)

Inductive exn : Type := TypeError | KeyError.

Inductive outcome (A : Type) : Type :=
| Return (a : A)
| Raise (e : exn).
Arguments Return {A} a.
Arguments Raise {A} e.

Definition stdout : Type := list string.

Definition Py (A : Type) : Type := stdout -> stdout * outcome A.

Definition ret {A} (a : A) : Py A := fun out => (out, Return a).

Definition raise {A} (e : exn) : Py A := fun out => (out, Raise e).

Definition bind {A B} (m : Py A) (k : A -> Py B) : Py B :=
  fun out =>
    match m out with
    | (out', Return a) => k a out'
    | (out', Raise e) => (out', Raise e)
    end.

Definition lift {A} (r : outcome A) : Py A := fun out => (out, r).

Definition print (s : string) : Py unit := fun out => ((out ++ [s])%list, Return tt).

Declare Scope py_scope.
Delimit Scope py_scope with py.
Notation "x <- m ;; k" := (bind m (fun x => k))
  (at level 61, m at next level, right associativity) : py_scope.
Notation "m ;; k" := (bind m (fun _ => k))
  (at level 61, right associativity) : py_scope.
Local Open Scope py_scope.

(** [for x in xs: body], with the local variables the body assigns
    threaded as [s] *)
Fixpoint for_fold {A S} (xs : list A) (body : A -> S -> Py S) (s : S) : Py S :=
  match xs with
  | [] => ret s
  | x :: xs' => s' <- body x s ;; for_fold xs' body s'
  end.

Definition for_each {A} (xs : list A) (body : A -> Py unit) : Py unit :=
  for_fold xs (fun x _ => body x) tt.

(** A whole run: the program starts with nothing printed. *)
Definition run {A} (m : Py A) : stdout * outcome A := m [].

(** [d[k]] on a dict *)
Fixpoint lookup {V} (k : string) (d : list (string * V)) : option V :=
  match d with
  | [] => None
  | (k', v) :: d' => if (k' =? k)%string then Some v else lookup k d'
  end.

Definition subscript {V} (d : list (string * V)) (k : string) : outcome V :=
  match lookup k d with
  | Some v => Return v
  | None => Raise KeyError
  end.

Definition keys {V} (d : list (string * V)) : list string := map fst d.
Definition values {V} (d : list (string * V)) : list V := map snd d.

(* ================================================================= *)
(** ** Data model *)

Inductive Industry : Type :=
| RETAIL | HEALTHCARE | MANUFACTURING | LOGISTICS
| AUTOMOTIVE | TECHNOLOGY | FINANCE.

(** [ind.name] *)
Definition industry_name (i : Industry) : string :=
  match i with
  | RETAIL => "RETAIL"
  | HEALTHCARE => "HEALTHCARE"
  | MANUFACTURING => "MANUFACTURING"
  | LOGISTICS => "LOGISTICS"
  | AUTOMOTIVE => "AUTOMOTIVE"
  | TECHNOLOGY => "TECHNOLOGY"
  | FINANCE => "FINANCE"
  end.

Record EdiStandard : Type := {
  std_name : string;
  latest_version : string;
  region : string;
  governing_body : string;
  year_established : Z
}.

Record EdiDocument : Type := {
  code : string;
  name : string;
  description : string;
  common_versions : list string;
  industries : list Industry;
  direction : string;
  transaction_flow : option string
}.

(* ================================================================= *)
(** ** The dataset *)

Definition STANDARDS : list (string * EdiStandard) :=
  [ ("ANSI_X12",
     {| std_name := "ANSI X12 (North American Standard)";
        latest_version := "6030";
        region := "North America";
        governing_body := "ANSI";
        year_established := 1979%Z |});
    ("EDIFACT",
     {| std_name := "EDIFACT (International Standard)";
        latest_version := "D22B";
        region := "Global";
        governing_body := "UNECE";
        year_established := 1987%Z |});
    ("TRADACOMS",
     {| std_name := "TRADACOMS (UK Retail Standard)";
        latest_version := "v3";
        region := "United Kingdom";
        governing_body := "GS1 UK";
        year_established := 1982%Z |});
    ("VDA",
     {| std_name := "VDA (German Automotive Standard)";
        latest_version := "6.0";
        region := "Germany";
        governing_body := "VDA";
        year_established := 1977%Z |});
    ("ROSETTANET",
     {| std_name := "RosettaNet (Technology Industry Standard)";
        latest_version := "02.00.00";
        region := "Global";
        governing_body := "GS1";
        year_established := 1998%Z |}) ].

(** [STANDARDS[k].name].  The five keys used below are keys of
    [STANDARDS] (lemma [standard_keys_present]), so the subscript never
    raises while the dataset is built. *)
Definition standard_name (k : string) : string :=
  match lookup k STANDARDS with
  | Some s => std_name s
  | None => ""
  end.

Definition get_edi_documents : list (string * list (string * EdiDocument)) :=
  [ (standard_name "ANSI_X12",
     [ ("204",
       {| code := "204";
          name := "Motor Carrier Load Tender";
          description := "A transportation order for shipping goods between locations";
          common_versions := ["4010"; "4030"; "5010"; "6030"];
          industries := [LOGISTICS; MANUFACTURING];
          direction := "Outbound";
          transaction_flow := Some "Shipper → Carrier" |});
       ("210",
       {| code := "210";
          name := "Motor Carrier Freight Details and Invoice";
          description := "Detailed freight invoice from carrier to shipper";
          common_versions := ["4010"; "5010"; "6030"];
          industries := [LOGISTICS];
          direction := "Inbound";
          transaction_flow := Some "Carrier → Shipper" |});
       ("810",
       {| code := "810";
          name := "Invoice";
          description := "Electronic invoice document for billing purposes";
          common_versions := ["4010"; "5010"; "6030"];
          industries := [RETAIL; MANUFACTURING; HEALTHCARE];
          direction := "Both";
          transaction_flow := Some "Supplier → Buyer or Service Provider → Client" |});
       ("820",
       {| code := "820";
          name := "Payment Order/Remittance Advice";
          description := "Electronic funds transfer payment information";
          common_versions := ["4010"; "5010"; "6030"];
          industries := [FINANCE; RETAIL; MANUFACTURING];
          direction := "Outbound";
          transaction_flow := Some "Payer → Payee" |});
       ("834",
       {| code := "834";
          name := "Benefit Enrollment and Maintenance";
          description := "Health insurance enrollment information exchange";
          common_versions := ["4010"; "5010"; "6030"];
          industries := [HEALTHCARE];
          direction := "Both";
          transaction_flow := Some "Employer → Insurance Carrier or Government Agency → Provider" |});
       ("850",
       {| code := "850";
          name := "Purchase Order";
          description := "Buyer's formal request to purchase goods/services";
          common_versions := ["4010"; "5010"; "6030"];
          industries := [RETAIL; MANUFACTURING; TECHNOLOGY];
          direction := "Outbound";
          transaction_flow := Some "Buyer → Supplier" |});
       ("855",
       {| code := "855";
          name := "Purchase Order Acknowledgment";
          description := "Supplier's response accepting or rejecting a PO";
          common_versions := ["4010"; "5010"; "6030"];
          industries := [RETAIL; MANUFACTURING];
          direction := "Inbound";
          transaction_flow := Some "Supplier → Buyer" |});
       ("856",
       {| code := "856";
          name := "Advance Shipping Notice";
          description := "Detailed shipment information prior to delivery";
          common_versions := ["4010"; "5010"; "6030"];
          industries := [RETAIL; MANUFACTURING; LOGISTICS];
          direction := "Outbound";
          transaction_flow := Some "Supplier → Buyer" |});
       ("940",
       {| code := "940";
          name := "Warehouse Shipping Order";
          description := "Instruction to warehouse to ship goods";
          common_versions := ["4010"; "5010"; "6030"];
          industries := [LOGISTICS; RETAIL];
          direction := "Outbound";
          transaction_flow := Some "Retailer → Warehouse" |});
       ("945",
       {| code := "945";
          name := "Warehouse Shipping Advice";
          description := "Confirmation of warehouse shipment";
          common_versions := ["4010"; "5010"; "6030"];
          industries := [LOGISTICS; RETAIL];
          direction := "Inbound";
          transaction_flow := Some "Warehouse → Retailer" |});
       ("997",
       {| code := "997";
          name := "Functional Acknowledgment";
          description := "Technical confirmation of received EDI transmission";
          common_versions := ["4010"; "5010"; "6030"];
          industries := [RETAIL; MANUFACTURING; HEALTHCARE];
          direction := "Both";
          transaction_flow := Some "Between trading partners" |}) ]);
    (standard_name "EDIFACT",
     [ ("DESADV",
       {| code := "DESADV";
          name := "Dispatch Advice";
          description := "Notification of goods dispatched (similar to X12 856)";
          common_versions := ["D96A"; "D00B"; "D22B"];
          industries := [LOGISTICS; MANUFACTURING];
          direction := "Outbound";
          transaction_flow := Some "Supplier → Buyer" |});
       ("IFCSUM",
       {| code := "IFCSUM";
          name := "International Forwarding and Consolidation Summary";
          description := "Shipping consolidation details for international logistics";
          common_versions := ["D96A"; "D00B"; "D22B"];
          industries := [LOGISTICS];
          direction := "Both";
          transaction_flow := Some "Between logistics providers" |});
       ("INVOIC",
       {| code := "INVOIC";
          name := "Invoice";
          description := "International invoice document for billing";
          common_versions := ["D96A"; "D00B"; "D22B"];
          industries := [RETAIL; MANUFACTURING];
          direction := "Outbound";
          transaction_flow := Some "Supplier → Buyer" |});
       ("ORDERS",
       {| code := "ORDERS";
          name := "Purchase Order";
          description := "International purchase order document";
          common_versions := ["D96A"; "D00B"; "D22B"];
          industries := [RETAIL; MANUFACTURING];
          direction := "Outbound";
          transaction_flow := Some "Buyer → Supplier" |});
       ("ORDRSP",
       {| code := "ORDRSP";
          name := "Order Response";
          description := "Response to a purchase order (acceptance/rejection)";
          common_versions := ["D96A"; "D00B"; "D22B"];
          industries := [RETAIL; MANUFACTURING];
          direction := "Inbound";
          transaction_flow := Some "Supplier → Buyer" |});
       ("PRICAT",
       {| code := "PRICAT";
          name := "Price/Sales Catalog";
          description := "Product catalog with pricing information";
          common_versions := ["D96A"; "D00B"; "D22B"];
          industries := [RETAIL; MANUFACTURING];
          direction := "Outbound";
          transaction_flow := Some "Supplier → Buyer" |});
       ("RECADV",
       {| code := "RECADV";
          name := "Receiving Advice";
          description := "Notification of goods received (similar to X12 861)";
          common_versions := ["D96A"; "D00B"; "D22B"];
          industries := [RETAIL; MANUFACTURING];
          direction := "Inbound";
          transaction_flow := Some "Buyer → Supplier" |}) ]);
    (standard_name "TRADACOMS",
     [ ("DELHDR",
       {| code := "DELHDR";
          name := "Delivery Header";
          description := "Delivery instructions for UK retail orders";
          common_versions := ["v1"; "v2"; "v3"];
          industries := [RETAIL];
          direction := "Outbound";
          transaction_flow := Some "Supplier → Retailer" |});
       ("INVFIL",
       {| code := "INVFIL";
          name := "Invoice File";
          description := "UK retail-specific invoice format";
          common_versions := ["v1"; "v2"; "v3"];
          industries := [RETAIL];
          direction := "Outbound";
          transaction_flow := Some "Supplier → Retailer" |});
       ("ORDHDR",
       {| code := "ORDHDR";
          name := "Order Header";
          description := "UK retail purchase order document";
          common_versions := ["v1"; "v2"; "v3"];
          industries := [RETAIL];
          direction := "Outbound";
          transaction_flow := Some "Retailer → Supplier" |});
       ("ORDCHG",
       {| code := "ORDCHG";
          name := "Order Change";
          description := "Modification to an existing purchase order";
          common_versions := ["v1"; "v2"; "v3"];
          industries := [RETAIL];
          direction := "Both";
          transaction_flow := Some "Between retailer and supplier" |}) ]);
    (standard_name "VDA",
     [ ("4905",
       {| code := "4905";
          name := "Delivery Schedule";
          description := "Just-in-time delivery schedule for automotive manufacturing";
          common_versions := ["4.3"; "5.0"; "6.0"];
          industries := [AUTOMOTIVE];
          direction := "Outbound";
          transaction_flow := Some "OEM → Supplier" |});
       ("4913",
       {| code := "4913";
          name := "Invoice";
          description := "Automotive industry-specific invoice format";
          common_versions := ["4.3"; "5.0"; "6.0"];
          industries := [AUTOMOTIVE];
          direction := "Outbound";
          transaction_flow := Some "Supplier → OEM" |});
       ("4981",
       {| code := "4981";
          name := "Shipping Notification";
          description := "Advanced shipping notice for automotive parts";
          common_versions := ["4.3"; "5.0"; "6.0"];
          industries := [AUTOMOTIVE];
          direction := "Outbound";
          transaction_flow := Some "Supplier → OEM" |}) ]);
    (standard_name "ROSETTANET",
     [ ("3A4",
       {| code := "3A4";
          name := "Purchase Order";
          description := "High-tech industry purchase order";
          common_versions := ["02.00.00"];
          industries := [TECHNOLOGY];
          direction := "Outbound";
          transaction_flow := Some "Buyer → Supplier" |});
       ("3A8",
       {| code := "3A8";
          name := "Purchase Order Change";
          description := "Modification to a technology purchase order";
          common_versions := ["02.00.00"];
          industries := [TECHNOLOGY];
          direction := "Both";
          transaction_flow := Some "Between trading partners" |});
       ("3B2",
       {| code := "3B2";
          name := "Shipping Notification";
          description := "Advanced shipping notice for technology products";
          common_versions := ["02.00.00"];
          industries := [TECHNOLOGY];
          direction := "Outbound";
          transaction_flow := Some "Supplier → Buyer" |});
       ("4B2",
       {| code := "4B2";
          name := "Advance Shipment Notification";
          description := "Detailed shipment information for technology supply chain";
          common_versions := ["02.00.00"];
          industries := [TECHNOLOGY];
          direction := "Outbound";
          transaction_flow := Some "Supplier → Buyer" |}) ]) ].

Definition dataset : Type := list (string * list (string * EdiDocument)).

(* ================================================================= *)
(** ** The ordering key of the listing and Python's [sorted] *)

(** The value of [int(x) if x.isdigit() else x]: an [int] or a [str].
    On a plain code ([PyStr.plain_code]) the conversion cannot fail. *)
Inductive sort_key : Type :=
| IntKey (n : Z)
| StrKey (s : string).

Definition code_key (x : string) : sort_key :=
  if PyStr.isdigit x then IntKey (PyStr.int x) else StrKey x.

(** [a < b] between two keys.  Python compares two [int]s by value and
    two [str]s lexically, and raises [TypeError] for an [int] against a
    [str]. *)
Definition key_lt (a b : sort_key) : outcome bool :=
  match a, b with
  | IntKey m, IntKey n => Return (m <? n)%Z
  | StrKey s, StrKey t => Return (String.ltb s t)
  | _, _ => Raise TypeError
  end.

(** [sorted(xs, key=f)] orders the items by [<] on their keys alone,
    keeps the input order of items with equal keys, and lets an
    exception of [<] escape.  It is modelled as the stable insertion
    sort: the items are taken in input order, and each enters the
    ordered prefix in front of the first element its key is smaller
    than. *)
Fixpoint insert_by_key {A} (key : A -> sort_key) (x : A) (l : list A)
  : outcome (list A) :=
  match l with
  | [] => Return [x]
  | y :: l' =>
      match key_lt (key x) (key y) with
      | Raise e => Raise e
      | Return true => Return (x :: l)
      | Return false =>
          match insert_by_key key x l' with
          | Raise e => Raise e
          | Return r => Return (y :: r)
          end
      end
  end.

Fixpoint sort_into {A} (key : A -> sort_key) (acc l : list A) : outcome (list A) :=
  match l with
  | [] => Return acc
  | x :: l' =>
      match insert_by_key key x acc with
      | Raise e => Raise e
      | Return acc' => sort_into key acc' l'
      end
  end.

Definition sorted {A} (xs : list A) (key : A -> sort_key) : outcome (list A) :=
  sort_into key [] xs.

(** Keys of one kind: all [int], or all [str]. *)
Definition is_int (k : sort_key) : bool :=
  match k with
  | IntKey _ => true
  | StrKey _ => false
  end.

Definition homogeneous (ks : list sort_key) : bool :=
  forallb is_int ks || forallb (fun k => negb (is_int k)) ks.

(** The order of the listing: [int] keys by value, [str] keys lexically.
    An [int] and a [str] are not ordered. *)
Definition key_le (a b : sort_key) : Prop :=
  match a, b with
  | IntKey m, IntKey n => (m <= n)%Z
  | StrKey s, StrKey t => String.leb s t = true
  | _, _ => False
  end.

(** the items whose key is an [int] ([b = true]) or a [str]
    ([b = false]) *)
Definition of_kind {A} (key : A -> sort_key) (b : bool) (x : A) : Prop :=
  is_int (key x) = b.

Definition le_by_key {A} (key : A -> sort_key) (x y : A) : Prop :=
  key_le (key x) (key y).

(* ================================================================= *)
(** ** Core functions *)

Definition nl : string := String "010"%char "".

(** [list_standards] *)
Definition list_standards (detailed : bool) : Py unit :=
  print (nl ++ "Supported EDI Standards:" ++ nl) ;;
  for_each (values STANDARDS) (fun std =>
    print ("• " ++ std_name std) ;;
    if detailed then
      print ("  - Latest Version: " ++ latest_version std) ;;
      print ("  - Region: " ++ region std) ;;
      print ("  - Governing Body: " ++ governing_body std) ;;
      print ("  - Established: " ++ PyStr.str_of_int (year_established std) ++ nl)
    else ret tt).

Section Render.

(** [fun s => fill(s, width=70, subsequent_indent='    ')] *)
Variable fill : string -> string.

(** The six statements that print one document; [list_edi_documents]
    and [search_edi_code] contain the same six statements, the first
    with the dict key [code], the second with the dict key
    [doc_code]. *)
Definition print_document (code : string) (doc : EdiDocument) : Py unit :=
  print ("• " ++ code ++ ": " ++ name doc) ;;
  print ("  Direction: " ++ direction doc) ;;
  (if PyStr.truthy (transaction_flow doc) then
     match transaction_flow doc with
     | Some flow => print ("  Flow: " ++ flow)
     | None => ret tt
     end
   else ret tt) ;;
  print ("  Versions: " ++ PyStr.join ", " (common_versions doc)) ;;
  print ("  Industries: " ++ PyStr.join ", " (map industry_name (industries doc))) ;;
  print ("  Description: " ++ fill (description doc) ++ nl).

(** [any(filter_industry.lower() in ind.name.lower()
         for ind in doc.industries)] *)
Definition industry_matches (filter_industry : string) (doc : EdiDocument) : bool :=
  existsb
    (fun ind => PyStr.contains (PyStr.lower filter_industry)
                               (PyStr.lower (industry_name ind)))
    (industries doc).

(** [filter_standard.lower() in k.lower()] *)
Definition standard_matches (filter_standard : string) (k : string) : bool :=
  PyStr.contains (PyStr.lower filter_standard) (PyStr.lower k).

(** The part of [list_edi_documents] after the standard filter: the
    title and one section for each standard kept.  [len(standard)] is
    [String.length standard] for the ASCII names of the dataset, where
    characters and bytes are the same; statements over other datasets
    assume ASCII names. *)
Definition list_sections (edi_docs : dataset) (filter_industry : option string)
  : Py unit :=
  print (nl ++ "EDI Document Reference:" ++ nl) ;;
  for_each edi_docs (fun '(standard, docs) =>
    print ("== " ++ standard ++ " ==") ;;
    print (PyStr.repeat_char "-" (String.length standard + 4) ++ nl) ;;
    codes <- lift (sorted (keys docs) code_key) ;;
    for_each codes (fun code =>
      doc <- lift (subscript docs code) ;;
      match filter_industry with
      | Some (String _ _ as fi) =>
          if negb (industry_matches fi doc) then ret tt
          else print_document code doc
      | _ => print_document code doc
      end)).

(** [list_edi_documents], over the dict [edi_docs] that
    [get_edi_documents()] returned *)
Definition list_edi_documents_from (edi_docs : dataset)
           (filter_standard filter_industry : option string) : Py unit :=
  match filter_standard with
  | Some (String _ _ as fs) =>
      let edi_docs' := filter (fun kv => standard_matches fs (fst kv)) edi_docs in
      match edi_docs' with
      | [] => print (nl ++ "No standards found matching '" ++ fs ++ "'")
      | _ => list_sections edi_docs' filter_industry
      end
  | _ => list_sections edi_docs filter_industry
  end.

Definition list_edi_documents : option string -> option string -> Py unit :=
  list_edi_documents_from get_edi_documents.

(** [search_edi_code], over the dict [edi_docs] that
    [get_edi_documents()] returned; the local variable [found] is
    threaded through both loops. *)
Definition search_edi_code_from (edi_docs : dataset)
           (code : string) (show_all : bool) : Py unit :=
  let code := PyStr.upper code in
  let found := false in
  print (nl ++ "Search Results for '" ++ code ++ "':" ++ nl) ;;
  found <- for_fold edi_docs (fun '(standard, docs) found =>
             for_fold docs (fun '(doc_code, doc) found =>
               if PyStr.contains code doc_code || show_all then
                 print ("== " ++ standard ++ " ==") ;;
                 print_document doc_code doc ;;
                 ret true
               else ret found) found) found ;;
  if negb found then print ("No EDI documents found matching '" ++ code ++ "'")
  else ret tt.

Definition search_edi_code : string -> bool -> Py unit :=
  search_edi_code_from get_edi_documents.

(* =============================================================== *)
(** ** Command line interface *)

(** The namespace [parse_args] returns: [-s], [-i] and [-c] carry a
    text or are absent ([None]); [-a], [-l] and [-d] are flags. *)
Record Namespace : Type := {
  arg_standard : option string;
  arg_industry : option string;
  arg_code : option string;
  arg_all : bool;
  arg_list_standards : bool;
  arg_detailed : bool
}.

Definition main (args : Namespace) : Py unit :=
  if arg_list_standards args then list_standards (arg_detailed args)
  else
    match arg_code args with
    | Some (String _ _ as c) => search_edi_code c (arg_all args)
    | _ => list_edi_documents (arg_standard args) (arg_industry args)
    end.

End Render.

(* ================================================================= *)
(** ** What a run prints, as plain lists of lines *)

Section Lines.

Variable fill : string -> string.

(** the lines [print_document] prints *)
Definition document_lines (code : string) (doc : EdiDocument) : list string :=
  ["• " ++ code ++ ": " ++ name doc;
   "  Direction: " ++ direction doc]
  ++ match transaction_flow doc with
     | Some (String _ _ as flow) => ["  Flow: " ++ flow]
     | _ => []
     end
  ++ ["  Versions: " ++ PyStr.join ", " (common_versions doc);
      "  Industries: " ++ PyStr.join ", " (map industry_name (industries doc));
      "  Description: " ++ fill (description doc) ++ nl].

Definition standard_header (standard : string) : string :=
  "== " ++ standard ++ " ==".

(** the divider under the header of a standard with an ASCII name *)
Definition standard_divider (standard : string) : string :=
  PyStr.repeat_char "-" (String.length standard + 4) ++ nl.

Definition listing_title : string := nl ++ "EDI Document Reference:" ++ nl.

Definition search_title (code : string) : string :=
  nl ++ "Search Results for '" ++ code ++ "':" ++ nl.

Definition no_documents_message (code : string) : string :=
  "No EDI documents found matching '" ++ code ++ "'".

Definition no_standards_message (filter_standard : string) : string :=
  nl ++ "No standards found matching '" ++ filter_standard ++ "'".

(** One (standard, code, document) triple per document, in dataset
    order: standards in their order, and within a standard its
    documents in theirs. *)
Definition entries (edi_docs : dataset) : list (string * string * EdiDocument) :=
  flat_map (fun sd => map (fun kd => (fst sd, fst kd, snd kd)) (snd sd)) edi_docs.

(** the block [search_edi_code] prints for one match *)
Definition match_lines (e : string * string * EdiDocument) : list string :=
  standard_header (fst (fst e)) :: document_lines (snd (fst e)) (snd e).

(** the match test of [search_edi_code], on the uppercased code *)
Definition is_match (code : string) (show_all : bool)
           (e : string * string * EdiDocument) : bool :=
  PyStr.contains code (snd (fst e)) || show_all.

(** The documents of one standard in the order of the listing. *)
Definition listing_order (docs : list (string * EdiDocument))
  : list (string * EdiDocument) :=
  match sorted docs (fun kd => code_key (fst kd)) with
  | Return l => l
  | Raise _ => []
  end.

(** Whether the industry filter lets a document through; [None] and
    the empty text filter nothing. *)
Definition industry_keeps (filter_industry : option string) (doc : EdiDocument)
  : bool :=
  match filter_industry with
  | Some (String _ _ as fi) => industry_matches fi doc
  | _ => true
  end.

(** the section [list_edi_documents] prints for one standard *)
Definition section_lines (filter_industry : option string)
           (sd : string * list (string * EdiDocument)) : list string :=
  [standard_header (fst sd); standard_divider (fst sd)]
  ++ flat_map (fun kd => document_lines (fst kd) (snd kd))
              (filter (fun kd => industry_keeps filter_industry (snd kd))
                      (listing_order (snd sd))).

(** the section of one standard, given its documents in the order
    printed *)
Definition section_of (sd : string * list (string * EdiDocument)) : list string :=
  [standard_header (fst sd); standard_divider (fst sd)]
  ++ flat_map (fun kd => document_lines (fst kd) (snd kd)) (snd sd).

(** A dict has each key once; the listing further needs the codes of
    one standard to be all numeric or all non-numeric. *)
Definition well_formed (edi_docs : dataset) : Prop :=
  Forall (fun sd => NoDup (keys (snd sd)) /\
                    homogeneous (map code_key (keys (snd sd))) = true)
         edi_docs.

End Lines.

(** Deciding [well_formed]. *)
Fixpoint distinct (l : list string) : bool :=
  match l with
  | [] => true
  | x :: l' => negb (existsb (String.eqb x) l') && distinct l'
  end.

Definition well_formedb (edi_docs : dataset) : bool :=
  forallb (fun sd => distinct (keys (snd sd)) &&
                     homogeneous (map code_key (keys (snd sd))))
          edi_docs.

(** [textwrap.fill] at the texts of the dataset: a text of at most 70
    characters, with single spaces between its words and none at its
    ends, fits the first line and comes back unchanged.  Every
    description of the dataset is such a text
    ([get_edi_documents_descriptions_fit]). *)
Definition fill_fitting (s : string) : string := s.

(** ** Command lines used as examples *)

(** [-c ""]: a code value is present and it is the empty text. *)
Definition empty_code_args : Namespace :=
  {| arg_standard := None;
     arg_industry := None;
     arg_code := Some "";
     arg_all := false;
     arg_list_standards := false;
     arg_detailed := false |}.

(** [-c 810 -a] *)
Definition code_810_args : Namespace :=
  {| arg_standard := None;
     arg_industry := None;
     arg_code := Some "810";
     arg_all := true;
     arg_list_standards := false;
     arg_detailed := false |}.


(** ** The functions over any dict, and the bodies of their loops *)

Definition standards_title : string := nl ++ "Supported EDI Standards:" ++ nl.

(** [list_standards], over the dict that the global [STANDARDS] holds *)
Definition list_standards_from (standards : list (string * EdiStandard))
           (detailed : bool) : Py unit :=
  print (nl ++ "Supported EDI Standards:" ++ nl) ;;
  for_each (values standards) (fun std =>
    print ("• " ++ std_name std) ;;
    if detailed then
      print ("  - Latest Version: " ++ latest_version std) ;;
      print ("  - Region: " ++ region std) ;;
      print ("  - Governing Body: " ++ governing_body std) ;;
      print ("  - Established: " ++ PyStr.str_of_int (year_established std) ++ nl)
    else ret tt).

(** the lines [list_standards] prints for one standard *)
Definition standard_lines (detailed : bool) (std : EdiStandard) : list string :=
  ("• " ++ std_name std)
    :: if detailed then
         ["  - Latest Version: " ++ latest_version std;
          "  - Region: " ++ region std;
          "  - Governing Body: " ++ governing_body std;
          "  - Established: " ++ PyStr.str_of_int (year_established std) ++ nl]
       else [].

(** The body of the loop of [list_edi_documents] over the standards. *)
Definition section_body (fill : string -> string) (filter_industry : option string)
           (sd : string * list (string * EdiDocument)) : Py unit :=
  let '(standard, docs) := sd in
  print ("== " ++ standard ++ " ==") ;;
  print (PyStr.repeat_char "-" (String.length standard + 4) ++ nl) ;;
  codes <- lift (sorted (keys docs) code_key) ;;
  for_each codes (fun code =>
    doc <- lift (subscript docs code) ;;
    match filter_industry with
    | Some (String _ _ as fi) =>
        if negb (industry_matches fi doc) then ret tt
        else print_document fill code doc
    | _ => print_document fill code doc
    end).

(** The standards [list_edi_documents] goes through: all of them without
    a standard filter, those whose name matches with one. *)
Definition selected (filter_standard : option string) (edi_docs : dataset) : dataset :=
  match filter_standard with
  | Some (String _ _ as fs) => filter (fun kv => standard_matches fs (fst kv)) edi_docs
  | _ => edi_docs
  end.

(** the codes of a standard are all numeric or all non-numeric *)
Definition one_kind (sd : string * list (string * EdiDocument)) : bool :=
  homogeneous (map code_key (keys (snd sd))).

(** ** The order of the listing, in the words of the specification

    "If the code is entirely numeric digits, sort by its numeric value;
    otherwise sort lexically."  These definitions are written from that
    sentence and use neither [code_key] nor [PyStr.isdigit] and
    [PyStr.int]; [code_key_numeric_value] relates the two. *)

Definition digit_value (c : ascii) : option Z :=
  match c with
  | "0"%char => Some 0%Z
  | "1"%char => Some 1%Z
  | "2"%char => Some 2%Z
  | "3"%char => Some 3%Z
  | "4"%char => Some 4%Z
  | "5"%char => Some 5%Z
  | "6"%char => Some 6%Z
  | "7"%char => Some 7%Z
  | "8"%char => Some 8%Z
  | "9"%char => Some 9%Z
  | _ => None
  end.

Fixpoint value_of_digits (acc : Z) (s : string) : option Z :=
  match s with
  | EmptyString => Some acc
  | String c s' =>
      match digit_value c with
      | Some d => value_of_digits (10 * acc + d) s'
      | None => None
      end
  end.

(** the number a code denotes when it consists of digits only, and of at
    least one *)
Definition numeric_value (s : string) : option Z :=
  match s with
  | EmptyString => None
  | _ => value_of_digits 0 s
  end.

Definition is_numeric (s : string) : bool :=
  match numeric_value s with
  | Some _ => true
  | None => false
  end.

(** [a] comes no later than [b]: two numeric codes by value, two other
    codes lexically; a numeric code and another one are not ordered. *)
Definition listing_leb (a b : string) : bool :=
  match numeric_value a, numeric_value b with
  | Some m, Some n => (m <=? n)%Z
  | None, None => String.leb a b
  | _, _ => false
  end.

(** codes that are all numeric, or all non-numeric *)
Definition codes_of_one_kind (codes : list string) : bool :=
  forallb is_numeric codes || forallb (fun c => negb (is_numeric c)) codes.

(** a dataset whose standard names are ASCII *)
Definition ascii_names (edi_docs : dataset) : bool :=
  forallb (fun sd => PyStr.ascii_only (fst sd)) edi_docs.

(** a dataset whose standard names are ASCII and whose codes are plain *)
Definition plain_dataset (edi_docs : dataset) : bool :=
  forallb (fun sd => PyStr.ascii_only (fst sd) &&
                     forallb PyStr.plain_code (keys (snd sd)))
          edi_docs.

(** a dataset in which every standard has each code once, and codes all
    numeric or all non-numeric *)
Definition orderly (edi_docs : dataset) : bool :=
  forallb (fun sd => distinct (keys (snd sd)) && codes_of_one_kind (keys (snd sd)))
          edi_docs.

(** [needle] is a contiguous part of [hay] *)
Definition occurs_in (needle hay : string) : Prop :=
  exists pre post, hay = pre ++ needle ++ post.

(** a document of a dataset of one standard, used as an example *)
Definition example_document : EdiDocument :=
  {| code := "3A4";
     name := "Purchase Order";
     description := "High-tech industry purchase order";
     common_versions := ["02.00.00"];
     industries := [TECHNOLOGY];
     direction := "Outbound";
     transaction_flow := Some "Buyer → Supplier" |}.

(* ================================================================= *)
(** ** Strings: facts *)

Module PyStrFacts.
Import PyStr.

Lemma prefix_empty (s : string) : String.prefix "" s = true.
Proof. destruct s; reflexivity. Qed.

Lemma contains_empty (hay : string) : contains "" hay = true.
Proof. destruct hay; reflexivity. Qed.

Lemma lower_char_idem (c : ascii) : lower_char (lower_char c) = lower_char c.
Proof.
  destruct c as [[] [] [] [] [] [] [] []]; reflexivity.
Qed.

Lemma char_case_variant_lower (c1 c2 : ascii) :
  char_case_variant c1 c2 -> lower_char c1 = lower_char c2.
Proof.
  intros H; destruct H as [c | c _ | c _].
  - reflexivity.
  - symmetry; apply lower_char_idem.
  - apply lower_char_idem.
Qed.

Lemma case_variant_lower (a b : string) :
  case_variant a b -> lower a = lower b.
Proof.
  induction 1 as [| c1 c2 s1 s2 Hc _ IH]; simpl.
  - reflexivity.
  - rewrite (char_case_variant_lower _ _ Hc), IH; reflexivity.
Qed.

Lemma case_variant_refl (s : string) : case_variant s s.
Proof. induction s; constructor; [constructor | assumption]. Qed.

Lemma case_variant_sym (a b : string) : case_variant a b -> case_variant b a.
Proof.
  induction 1 as [| c1 c2 s1 s2 Hc _ IH]; constructor; try assumption.
  destruct Hc; constructor; assumption.
Qed.

End PyStrFacts.

(* ================================================================= *)
(** ** Computations: facts *)

Lemma for_fold_app {A S} (xs ys : list A) (body : A -> S -> Py S) (s : S) (out : stdout) :
  for_fold (xs ++ ys)%list body s out =
  match for_fold xs body s out with
  | (out', Return s') => for_fold ys body s' out'
  | (out', Raise e) => (out', Raise e)
  end.
Proof.
  revert s out; induction xs as [| x xs IH]; intros s out; simpl.
  - reflexivity.
  - unfold bind. destruct (body x s out) as [out' [s' | e]].
    + apply IH.
    + reflexivity.
Qed.

Lemma existsb_over_map {A B} (f : A -> B) (p : B -> bool) (l : list A) :
  existsb p (map f l) = existsb (fun x => p (f x)) l.
Proof.
  induction l as [| x l IH]; cbn [map existsb]; [| rewrite IH]; reflexivity.
Qed.

(** A loop whose body only prints, prints the bodies' lines in order. *)
Lemma for_each_prints {A} (xs : list A) (body : A -> Py unit)
      (lines : A -> list string) :
  (forall x out, In x xs -> body x out = ((out ++ lines x)%list, Return tt)) ->
  forall out, for_each xs body out = ((out ++ flat_map lines xs)%list, Return tt).
Proof.
  unfold for_each.
  induction xs as [| x xs IH]; intros Hbody out; simpl.
  - rewrite app_nil_r; reflexivity.
  - unfold bind. rewrite Hbody by (left; reflexivity).
    rewrite IH by (intros; apply Hbody; right; assumption).
    rewrite <- app_assoc; reflexivity.
Qed.

Section RenderFacts.

Variable fill : string -> string.

Lemma print_document_run (code : string) (doc : EdiDocument) (out : stdout) :
  print_document fill code doc out =
  ((out ++ document_lines fill code doc)%list, Return tt).
Proof.
  unfold print_document, document_lines, bind, print, ret.
  destruct (transaction_flow doc) as [[| c flow] |]; simpl;
    repeat rewrite <- app_assoc; reflexivity.
Qed.

(** *** [search_edi_code] *)

(** The inner loop over the documents of one standard. *)
Lemma search_inner_run (code standard : string) (show_all : bool)
      (docs : list (string * EdiDocument)) (found : bool) (out : stdout) :
  for_fold docs (fun '(doc_code, doc) found =>
      if PyStr.contains code doc_code || show_all then
        print ("== " ++ standard ++ " ==") ;;
        print_document fill doc_code doc ;;
        ret true
      else ret found) found out =
  ((out ++ flat_map (match_lines fill)
             (filter (is_match code show_all)
                     (map (fun kd => (standard, fst kd, snd kd)) docs)))%list,
   Return (found || existsb (fun kd => PyStr.contains code (fst kd) || show_all) docs)).
Proof.
  revert found out; induction docs as [| [k d] docs IH]; intros found out;
    cbn [for_fold map filter flat_map existsb].
  - unfold ret. rewrite app_nil_r, orb_false_r; reflexivity.
  - unfold bind at 1. unfold is_match at 1. cbn [fst snd].
    destruct (PyStr.contains code k || show_all) eqn:E.
    + unfold bind, print, ret. rewrite print_document_run.
      rewrite IH. cbn [flat_map]. rewrite orb_true_r.
      unfold match_lines at 1, standard_header. cbn [fst snd orb].
      repeat rewrite <- app_assoc. reflexivity.
    + unfold ret. rewrite IH. rewrite orb_false_l. reflexivity.
Qed.

Lemma search_outer_run (code : string) (show_all : bool)
      (edi_docs : dataset) (found : bool) (out : stdout) :
  for_fold edi_docs (fun '(standard, docs) found =>
      for_fold docs (fun '(doc_code, doc) found =>
        if PyStr.contains code doc_code || show_all then
          print ("== " ++ standard ++ " ==") ;;
          print_document fill doc_code doc ;;
          ret true
        else ret found) found) found out =
  ((out ++ flat_map (match_lines fill)
             (filter (is_match code show_all) (entries edi_docs)))%list,
   Return (found || existsb (is_match code show_all) (entries edi_docs))).
Proof.
  revert found out; induction edi_docs as [| [standard docs] ds IH];
    intros found out.
  - cbn. rewrite app_nil_r, orb_false_r; reflexivity.
  - cbn [for_fold]. unfold bind at 1. rewrite search_inner_run. rewrite IH.
    unfold entries; cbn [flat_map fst snd]. fold (entries ds).
    rewrite filter_app, flat_map_app, existsb_app, <- app_assoc, <- orb_assoc.
    f_equal. f_equal. f_equal. f_equal.
    rewrite existsb_over_map. reflexivity.
Qed.

(** The whole of [search_edi_code]: the title, one block for each
    matching entry in dataset order, and the closing message when and
    only when nothing matched. *)
Lemma search_edi_code_from_run (edi_docs : dataset) (code : string) (show_all : bool) :
  run (search_edi_code_from fill edi_docs code show_all) =
  let hits := filter (is_match (PyStr.upper code) show_all) (entries edi_docs) in
  ((search_title (PyStr.upper code) :: flat_map (match_lines fill) hits
      ++ match hits with
         | [] => [no_documents_message (PyStr.upper code)]
         | _ => []
         end)%list,
   Return tt).
Proof.
  unfold run, search_edi_code_from. cbv zeta.
  unfold bind at 1. unfold print at 1. cbn [app].
  unfold bind at 1. rewrite search_outer_run. cbn [orb].
  assert (Hex : existsb (is_match (PyStr.upper code) show_all) (entries edi_docs) =
                match filter (is_match (PyStr.upper code) show_all) (entries edi_docs) with
                | [] => false | _ => true end).
  { induction (entries edi_docs) as [| e es IH]; cbn [existsb filter].
    - reflexivity.
    - destruct (is_match (PyStr.upper code) show_all e); cbn [orb]; auto. }
  rewrite Hex.
  destruct (filter (is_match (PyStr.upper code) show_all) (entries edi_docs));
    cbn [negb flat_map].
  - reflexivity.
  - unfold ret. rewrite app_nil_r. reflexivity.
Qed.

End RenderFacts.

(* ================================================================= *)
(** ** [sorted]: facts *)

Section SortFacts.

Context {A : Type}.
Variable key : A -> sort_key.

Lemma key_lt_same_kind (b : bool) (x y : A) :
  of_kind key b x -> of_kind key b y ->
  exists r, key_lt (key x) (key y) = Return r /\
            (r = true -> le_by_key key x y) /\
            (r = false -> le_by_key key y x).
Proof.
  unfold of_kind, le_by_key. intros Hx Hy.
  destruct (key x) as [m | s], (key y) as [n | t]; cbn in *; try congruence.
  - exists (m <? n)%Z. split; [reflexivity |]. split; intros H.
    + apply Z.ltb_lt in H. lia.
    + apply Z.ltb_ge in H. assumption.
  - exists (String.ltb s t). split; [reflexivity |].
    unfold String.ltb, String.leb. rewrite (String.compare_antisym s t).
    destruct (String.compare t s); cbn; split; intros H;
      congruence.
Qed.

Lemma key_lt_other_kind (b : bool) (x y : A) :
  of_kind key b x -> of_kind key (negb b) y ->
  key_lt (key x) (key y) = Raise TypeError.
Proof.
  unfold of_kind. intros Hx Hy.
  destruct (key x), (key y), b; cbn in *; congruence.
Qed.

(** Insertion among items of the same kind succeeds, adds the item and
    keeps the order. *)
Lemma insert_by_key_same_kind (b : bool) (x : A) (l : list A) :
  of_kind key b x -> Forall (of_kind key b) l ->
  exists r, insert_by_key key x l = Return r /\
            Permutation (x :: l) r /\
            (Sorted (le_by_key key) l -> Sorted (le_by_key key) r) /\
            (forall y, HdRel (le_by_key key) y l -> le_by_key key y x -> HdRel (le_by_key key) y r).
Proof.
  intros Hx. induction l as [| y l IH]; intros Hl.
  - exists [x]. cbn. repeat split; auto.
  - inversion Hl as [| ? ? Hy Hl']; subst.
    destruct (key_lt_same_kind b x y Hx Hy) as [c [Hc [Hlt Hge]]].
    cbn [insert_by_key]. rewrite Hc. destruct c.
    + exists (x :: y :: l). repeat split; auto.
    + destruct (IH Hl') as [r [Hr [Hperm [Hsorted Hhd]]]].
      rewrite Hr. exists (y :: r). repeat split.
      * rewrite perm_swap. apply perm_skip. assumption.
      * intros Hs. inversion Hs as [| ? ? Hs' Hh]; subst.
        constructor; [apply Hsorted; assumption |].
        apply Hhd; [assumption | apply Hge; reflexivity].
      * intros z Hz _. inversion Hz; subst. constructor. assumption.
Qed.

(** Insertion of an item of the other kind raises at the first
    comparison. *)
Lemma insert_by_key_other_kind (b : bool) (x y : A) (l : list A) :
  of_kind key (negb b) x -> of_kind key b y ->
  insert_by_key key x (y :: l) = Raise TypeError.
Proof.
  intros Hx Hy. cbn [insert_by_key].
  rewrite (key_lt_other_kind (negb b) x y); [reflexivity | assumption |].
  rewrite negb_involutive. assumption.
Qed.

Lemma sort_into_same_kind (b : bool) (l acc : list A) :
  Forall (of_kind key b) acc -> Forall (of_kind key b) l -> Sorted (le_by_key key) acc ->
  exists r, sort_into key acc l = Return r /\
            Permutation (acc ++ l)%list r /\ Sorted (le_by_key key) r.
Proof.
  revert acc. induction l as [| x l IH]; intros acc Hacc Hl Hs.
  - exists acc. rewrite app_nil_r. auto.
  - inversion Hl as [| ? ? Hx Hl']; subst.
    destruct (insert_by_key_same_kind b x acc Hx Hacc) as [acc' [Hi [Hp [Hso _]]]].
    cbn [sort_into]. rewrite Hi.
    destruct (IH acc') as [r [Hr [Hpr Hsr]]]; auto.
    + apply (Permutation_Forall Hp). constructor; assumption.
    + exists r. repeat split; auto.
      rewrite <- Hpr. rewrite <- Hp. symmetry. apply Permutation_middle.
Qed.

Lemma sort_into_other_kind (b : bool) (l acc : list A) :
  acc <> [] -> Forall (of_kind key b) acc -> Exists (of_kind key (negb b)) l ->
  sort_into key acc l = Raise TypeError.
Proof.
  revert acc. induction l as [| x l IH]; intros acc Hne Hacc Hex.
  - inversion Hex.
  - cbn [sort_into].
    destruct (is_int (key x)) eqn:Ex.
    + destruct b.
      * destruct (insert_by_key_same_kind true x acc Ex Hacc) as [acc' [Hi [Hp _]]].
        rewrite Hi. apply IH.
        -- intros ->. apply Permutation_sym, Permutation_nil in Hp. discriminate.
        -- apply (Permutation_Forall Hp). constructor; assumption.
        -- inversion Hex as [? ? Hx | ? ? Hx]; subst; [| assumption].
           unfold of_kind in Hx. cbn in Hx. congruence.
      * destruct acc as [| y acc]; [congruence |].
        inversion Hacc; subst.
        rewrite (insert_by_key_other_kind false x y acc); auto.
    + destruct b.
      * destruct acc as [| y acc]; [congruence |].
        inversion Hacc; subst.
        rewrite (insert_by_key_other_kind true x y acc); auto.
      * destruct (insert_by_key_same_kind false x acc Ex Hacc) as [acc' [Hi [Hp _]]].
        rewrite Hi. apply IH.
        -- intros ->. apply Permutation_sym, Permutation_nil in Hp. discriminate.
        -- apply (Permutation_Forall Hp). constructor; assumption.
        -- inversion Hex as [? ? Hx | ? ? Hx]; subst; [| assumption].
           unfold of_kind in Hx. cbn in Hx. congruence.
Qed.

Lemma homogeneous_of_kind (xs : list A) :
  homogeneous (map key xs) = true ->
  exists b, Forall (of_kind key b) xs.
Proof.
  unfold homogeneous. intros H. apply orb_true_iff in H.
  destruct H as [H | H]; [exists true | exists false];
    rewrite forallb_forall in H; apply Forall_forall; intros x Hx;
    specialize (H (key x) (in_map key _ _ Hx)); unfold of_kind.
  - assumption.
  - apply negb_true_iff in H. assumption.
Qed.

Lemma not_homogeneous_mixed (x : A) (xs : list A) :
  homogeneous (map key (x :: xs)) = false ->
  Exists (of_kind key (negb (is_int (key x)))) xs.
Proof.
  unfold homogeneous. cbn [map forallb]. intros H.
  apply orb_false_iff in H. destruct H as [H1 H2].
  apply Exists_exists.
  destruct (is_int (key x)) eqn:Ex; cbn in H1, H2.
  - clear H2. induction xs as [| y ys IH]; cbn in H1; [discriminate |].
    destruct (is_int (key y)) eqn:Ey.
    + destruct (IH H1) as [z [Hz Hk]]. exists z. split; [right |]; assumption.
    + exists y. split; [left; reflexivity | exact Ey].
  - clear H1. induction xs as [| y ys IH]; cbn in H2; [discriminate |].
    destruct (is_int (key y)) eqn:Ey.
    + exists y. split; [left; reflexivity | exact Ey].
    + destruct (IH H2) as [z [Hz Hk]]. exists z. split; [right |]; assumption.
Qed.

(** [sorted] on keys of one kind returns the items in non-decreasing
    key order. *)
Lemma sorted_homogeneous (xs : list A) :
  homogeneous (map key xs) = true ->
  exists l, sorted xs key = Return l /\ Permutation xs l /\ Sorted (le_by_key key) l.
Proof.
  intros H. destruct (homogeneous_of_kind xs H) as [b Hb].
  destruct (sort_into_same_kind b xs [] (Forall_nil _) Hb (Sorted_nil _))
    as [r [Hr [Hp Hs]]].
  exists r. auto.
Qed.

(** [sorted] on keys of both kinds raises [TypeError]. *)
Lemma sorted_mixed (xs : list A) :
  homogeneous (map key xs) = false ->
  sorted xs key = Raise TypeError.
Proof.
  destruct xs as [| x xs]; [discriminate |]. intros H.
  unfold sorted. cbn [sort_into insert_by_key].
  apply (sort_into_other_kind (is_int (key x))).
  - discriminate.
  - constructor; [reflexivity | constructor].
  - apply not_homogeneous_mixed. assumption.
Qed.

End SortFacts.

(* ================================================================= *)
(** ** The key of the program and the order of the specification *)

Lemma digit_value_spec (c : ascii) :
  digit_value c =
  if PyStr.is_digit c then Some (Z.of_N (N_of_ascii c) - 48)%Z else None.
Proof. destruct c as [[] [] [] [] [] [] [] []]; reflexivity. Qed.

Lemma value_of_digits_spec (s : string) (acc : Z) :
  value_of_digits acc s =
  if PyStr.all_digits s then Some (PyStr.int_from acc s) else None.
Proof.
  revert acc. induction s as [| c s IH]; intros acc; cbn [value_of_digits PyStr.all_digits PyStr.int_from].
  - reflexivity.
  - rewrite digit_value_spec. destruct (PyStr.is_digit c); cbn [andb].
    + apply IH.
    + reflexivity.
Qed.

Lemma numeric_value_spec (s : string) :
  numeric_value s = if PyStr.isdigit s then Some (PyStr.int s) else None.
Proof.
  destruct s as [| c s]; [reflexivity |].
  unfold numeric_value, PyStr.isdigit, PyStr.int. apply value_of_digits_spec.
Qed.

(** The key of the program is the numeric value of a numeric code and
    the code itself otherwise. *)
Lemma code_key_numeric_value (s : string) :
  code_key s =
  match numeric_value s with
  | Some n => IntKey n
  | None => StrKey s
  end.
Proof.
  unfold code_key. rewrite numeric_value_spec.
  destruct (PyStr.isdigit s); reflexivity.
Qed.

Lemma is_int_code_key (s : string) : is_int (code_key s) = is_numeric s.
Proof.
  rewrite code_key_numeric_value. unfold is_numeric.
  destruct (numeric_value s); reflexivity.
Qed.

Lemma forallb_over_map {A B} (f : A -> B) (p : B -> bool) (l : list A) :
  forallb p (map f l) = forallb (fun x => p (f x)) l.
Proof.
  induction l as [| x l IH]; cbn [map forallb]; [| rewrite IH]; reflexivity.
Qed.

Lemma forallb_pointwise {A} (p q : A -> bool) (l : list A) :
  (forall x, p x = q x) -> forallb p l = forallb q l.
Proof.
  intros H. induction l as [| x l IH]; cbn [forallb]; [| rewrite H, IH]; reflexivity.
Qed.

Lemma homogeneous_codes (codes : list string) :
  homogeneous (map code_key codes) = codes_of_one_kind codes.
Proof.
  unfold homogeneous, codes_of_one_kind. rewrite !forallb_over_map.
  rewrite (forallb_pointwise _ is_numeric) by apply is_int_code_key.
  rewrite (forallb_pointwise (fun x => negb (is_int (code_key x)))
                             (fun c => negb (is_numeric c)))
    by (intros x; rewrite is_int_code_key; reflexivity).
  reflexivity.
Qed.

Lemma key_le_listing_leb (a b : string) :
  key_le (code_key a) (code_key b) <-> listing_leb a b = true.
Proof.
  rewrite !code_key_numeric_value. unfold listing_leb.
  destruct (numeric_value a), (numeric_value b); cbn [key_le].
  - symmetry. apply Z.leb_le.
  - split; [contradiction | discriminate].
  - split; [contradiction | discriminate].
  - reflexivity.
Qed.

Lemma Sorted_impl {A} (R R' : A -> A -> Prop) (l : list A) :
  (forall a b, R a b -> R' a b) -> Sorted R l -> Sorted R' l.
Proof.
  intros H. induction 1 as [| x l _ IH Hhd]; constructor.
  - assumption.
  - destruct Hhd; constructor. apply H. assumption.
Qed.

Lemma StronglySorted_impl {A} (R R' : A -> A -> Prop) (l : list A) :
  (forall a b, R a b -> R' a b) -> StronglySorted R l -> StronglySorted R' l.
Proof.
  intros H. induction 1 as [| x l _ IH Hall]; constructor.
  - assumption.
  - apply (Forall_impl _ (H x) Hall).
Qed.

Lemma insert_by_key_map {A B} (f : A -> B) (key : B -> sort_key) (x : A) (l : list A) :
  insert_by_key key (f x) (map f l) =
  match insert_by_key (fun a => key (f a)) x l with
  | Return r => Return (map f r)
  | Raise e => Raise e
  end.
Proof.
  induction l as [| y l IH]; cbn [map insert_by_key].
  - reflexivity.
  - destruct (key_lt (key (f x)) (key (f y))) as [[|] | e]; try reflexivity.
    rewrite IH. destruct (insert_by_key (fun a => key (f a)) x l); reflexivity.
Qed.

Lemma sort_into_map {A B} (f : A -> B) (key : B -> sort_key) (l acc : list A) :
  sort_into key (map f acc) (map f l) =
  match sort_into (fun a => key (f a)) acc l with
  | Return r => Return (map f r)
  | Raise e => Raise e
  end.
Proof.
  revert acc; induction l as [| x l IH]; intros acc; cbn [map sort_into].
  - reflexivity.
  - rewrite insert_by_key_map.
    destruct (insert_by_key (fun a => key (f a)) x acc) as [acc' | e].
    + apply IH.
    + reflexivity.
Qed.

(** Sorting the codes of a dict is sorting its items by their codes. *)
Lemma sorted_keys {V} (d : list (string * V)) :
  sorted (keys d) code_key =
  match sorted d (fun kv => code_key (fst kv)) with
  | Return l => Return (keys l)
  | Raise e => Raise e
  end.
Proof. unfold sorted, keys. apply (sort_into_map fst code_key d []). Qed.

(** ** Dicts: facts *)

Lemma lookup_in {V} (d : list (string * V)) (k : string) (v : V) :
  NoDup (keys d) -> In (k, v) d -> lookup k d = Some v.
Proof.
  induction d as [| [k' v'] d IH]; intros Hnd Hin; cbn in *.
  - contradiction.
  - inversion Hnd as [| ? ? Hk' Hnd']; subst.
    destruct Hin as [Heq | Hin].
    + inversion Heq; subst. rewrite String.eqb_refl. reflexivity.
    + destruct (String.eqb_spec k' k) as [-> | _].
      * exfalso. apply Hk'. change k with (fst (k, v)). apply in_map. assumption.
      * apply IH; assumption.
Qed.

(* ================================================================= *)
(** ** [list_edi_documents]: what it prints *)

Section ListingFacts.

Variable fill : string -> string.

Lemma listing_order_spec (docs : list (string * EdiDocument)) :
  homogeneous (map code_key (keys docs)) = true ->
  sorted docs (fun kd => code_key (fst kd)) = Return (listing_order docs) /\
  Permutation docs (listing_order docs) /\
  Sorted (fun a b => key_le (code_key (fst a)) (code_key (fst b)))
         (listing_order docs).
Proof.
  intros H. unfold keys in H. rewrite map_map in H.
  destruct (sorted_homogeneous (fun kd : string * EdiDocument => code_key (fst kd)) docs H)
    as [l [Hl [Hp Hs]]].
  unfold listing_order. rewrite Hl. auto.
Qed.

(** The loop over the ordered codes of one standard. *)
Lemma list_documents_run (docs items : list (string * EdiDocument))
      (filter_industry : option string) (out : stdout) :
  Forall (fun kd => lookup (fst kd) docs = Some (snd kd)) items ->
  for_each (keys items) (fun code =>
      doc <- lift (subscript docs code) ;;
      match filter_industry with
      | Some (String _ _ as fi) =>
          if negb (industry_matches fi doc) then ret tt
          else print_document fill code doc
      | _ => print_document fill code doc
      end) out =
  ((out ++ flat_map (fun kd => document_lines fill (fst kd) (snd kd))
             (filter (fun kd => industry_keeps filter_industry (snd kd)) items))%list,
   Return tt).
Proof.
  unfold for_each. intros H; revert out.
  induction H as [| [k d] items Hk _ IH]; intros out.
  - cbn. rewrite app_nil_r. reflexivity.
  - cbn [keys map fst snd for_fold filter] in *.
    unfold bind at 1. unfold bind at 1. unfold lift, subscript. rewrite Hk.
    destruct filter_industry as [[| c fi] |]; cbn [industry_keeps].
    + rewrite print_document_run, IH. cbn [flat_map fst snd].
      rewrite <- app_assoc. reflexivity.
    + destruct (industry_matches (String c fi) d); cbn [negb].
      * rewrite print_document_run, IH. cbn [flat_map fst snd].
        rewrite <- app_assoc. reflexivity.
      * unfold ret. rewrite IH. reflexivity.
    + rewrite print_document_run, IH. cbn [flat_map fst snd].
      rewrite <- app_assoc. reflexivity.
Qed.

(** The title and the sections of the standards kept. *)
Lemma list_sections_run (edi_docs : dataset) (filter_industry : option string)
      (out : stdout) :
  well_formed edi_docs ->
  list_sections fill edi_docs filter_industry out =
  ((out ++ listing_title :: flat_map (section_lines fill filter_industry) edi_docs)%list,
   Return tt).
Proof.
  intros Hwf. unfold list_sections.
  unfold bind at 1. unfold print at 1.
  rewrite (for_each_prints edi_docs _ (section_lines fill filter_industry)).
  - rewrite <- app_assoc. reflexivity.
  - intros [standard docs] out' Hin.
    unfold well_formed in Hwf. rewrite Forall_forall in Hwf.
    destruct (Hwf _ Hin) as [Hnd Hhom]. cbn [snd] in Hnd, Hhom.
    destruct (listing_order_spec docs Hhom) as [Hsort [Hperm _]].
    unfold bind at 1. unfold print at 1.
    unfold bind at 1. unfold print at 1.
    unfold bind at 1. unfold lift at 1.
    rewrite sorted_keys, Hsort.
    rewrite list_documents_run.
    + unfold section_lines, standard_header, standard_divider. cbn [fst snd].
      repeat rewrite <- app_assoc. reflexivity.
    + apply Forall_forall. intros [k d] Hkd. cbn [fst snd].
      apply lookup_in; [assumption |].
      apply (Permutation_in _ (Permutation_sym Hperm)). assumption.
Qed.

Lemma well_formed_filter (p : string * list (string * EdiDocument) -> bool)
      (edi_docs : dataset) :
  well_formed edi_docs -> well_formed (filter p edi_docs).
Proof.
  unfold well_formed. rewrite !Forall_forall. intros H sd Hin.
  apply filter_In in Hin. apply H. tauto.
Qed.

(** The whole of [list_edi_documents]. *)
Lemma list_edi_documents_from_run (edi_docs : dataset)
      (filter_standard filter_industry : option string) :
  well_formed edi_docs ->
  run (list_edi_documents_from fill edi_docs filter_standard filter_industry) =
  match filter_standard with
  | Some (String _ _ as fs) =>
      match filter (fun kv => standard_matches fs (fst kv)) edi_docs with
      | [] => ([no_standards_message fs], Return tt)
      | kept =>
          (listing_title :: flat_map (section_lines fill filter_industry) kept,
           Return tt)
      end
  | _ =>
      (listing_title :: flat_map (section_lines fill filter_industry) edi_docs,
       Return tt)
  end.
Proof.
  intros Hwf. unfold run, list_edi_documents_from.
  destruct filter_standard as [[| c fs] |].
  - rewrite list_sections_run by assumption. reflexivity.
  - cbv zeta.
    pose proof (well_formed_filter
                  (fun kv => standard_matches (String c fs) (fst kv)) edi_docs Hwf) as Hwf'.
    destruct (filter (fun kv => standard_matches (String c fs) (fst kv)) edi_docs)
      as [| sd kept].
    + reflexivity.
    + rewrite list_sections_run by assumption. reflexivity.
  - rewrite list_sections_run by assumption. reflexivity.
Qed.

End ListingFacts.

(* ================================================================= *)
(** ** The dataset: facts *)

Lemma distinct_NoDup (l : list string) : distinct l = true -> NoDup l.
Proof.
  induction l as [| x l IH]; cbn [distinct]; intros H.
  - constructor.
  - apply andb_true_iff in H. destruct H as [Hx Hl].
    constructor; [| apply IH; assumption].
    intros Hin. apply negb_true_iff in Hx.
    assert (existsb (String.eqb x) l = true); [| congruence].
    apply existsb_exists. exists x. split; [assumption | apply String.eqb_refl].
Qed.

Lemma well_formedb_sound (edi_docs : dataset) :
  well_formedb edi_docs = true -> well_formed edi_docs.
Proof.
  unfold well_formedb, well_formed. rewrite forallb_forall, Forall_forall.
  intros H sd Hin. specialize (H sd Hin). apply andb_true_iff in H.
  destruct H as [Hd Hh]. split; [apply distinct_NoDup |]; assumption.
Qed.

(** Each standard of the dataset has its codes once, and all numeric
    (ANSI X12, VDA) or all non-numeric (EDIFACT, TRADACOMS,
    RosettaNet). *)
Lemma get_edi_documents_well_formed : well_formed get_edi_documents.
Proof. apply well_formedb_sound. vm_compute. reflexivity. Qed.

Lemma orderly_well_formed (edi_docs : dataset) :
  orderly edi_docs = true -> well_formed edi_docs.
Proof.
  intros H. apply well_formedb_sound. unfold well_formedb. unfold orderly in H.
  rewrite <- H. apply forallb_pointwise. intros sd.
  rewrite homogeneous_codes. reflexivity.
Qed.

(** The standards of the dataset have distinct display names. *)
Lemma get_edi_documents_standards_distinct : NoDup (keys get_edi_documents).
Proof. apply distinct_NoDup. vm_compute. reflexivity. Qed.

(** The keys [get_edi_documents] subscripts [STANDARDS] with are keys of
    [STANDARDS]. *)
Lemma standard_keys_present :
  Forall (fun k => lookup k STANDARDS <> None)
         ["ANSI_X12"; "EDIFACT"; "TRADACOMS"; "VDA"; "ROSETTANET"].
Proof. repeat constructor; discriminate. Qed.

(** Every document is stored under its own code, and the code is its
    own uppercase form. *)
Lemma get_edi_documents_codes :
  forallb (fun e => (snd (fst e) =? code (snd e))%string &&
                    (PyStr.upper (code (snd e)) =? code (snd e))%string)
          (entries get_edi_documents) = true.
Proof. vm_compute. reflexivity. Qed.

(** Every document names at least one industry. *)
Lemma get_edi_documents_industries :
  forallb (fun e => match industries (snd e) with [] => false | _ => true end)
          (entries get_edi_documents) = true.
Proof. vm_compute. reflexivity. Qed.

(** The (standard, code) pairs of the dataset are pairwise distinct. *)
Lemma get_edi_documents_pairs_distinct :
  NoDup (map fst (entries get_edi_documents)).
Proof.
  assert (H : NoDup (map (fun e => fst (fst e) ++ nl ++ snd (fst e))
                         (entries get_edi_documents))).
  { apply distinct_NoDup. vm_compute. reflexivity. }
  apply (NoDup_map_inv (fun p : string * string => fst p ++ nl ++ snd p)).
  rewrite map_map. exact H.
Qed.

Lemma in_entries (edi_docs : dataset) (standard : string)
      (docs : list (string * EdiDocument)) (k : string) (d : EdiDocument) :
  In (standard, docs) edi_docs -> In (k, d) docs ->
  In (standard, k, d) (entries edi_docs).
Proof.
  intros Hs Hd. unfold entries. apply in_flat_map.
  exists (standard, docs). split; [assumption |].
  cbn [fst snd]. apply (in_map (fun kd => (standard, fst kd, snd kd)) docs (k, d)).
  assumption.
Qed.

Lemma get_edi_documents_descriptions_fit :
  forallb (fun e => Nat.leb (String.length (description (snd e))) 70)
          (entries get_edi_documents) = true.
Proof. vm_compute. reflexivity. Qed.

Lemma filter_all {A} (p : A -> bool) (l : list A) :
  (forall x, In x l -> p x = true) -> filter p l = l.
Proof.
  induction l as [| x l IH]; intros H; cbn [filter].
  - reflexivity.
  - rewrite (H x (or_introl eq_refl)). f_equal. apply IH.
    intros y Hy. apply H. right. assumption.
Qed.

Lemma flat_map_map {A B C} (f : B -> list C) (g : A -> B) (l : list A) :
  flat_map f (map g l) = flat_map (fun x => f (g x)) l.
Proof.
  induction l as [| x l IH]; cbn [map flat_map]; [| rewrite IH]; reflexivity.
Qed.

Lemma flat_map_pointwise {A B} (f g : A -> list B) (l : list A) :
  (forall x, In x l -> f x = g x) -> flat_map f l = flat_map g l.
Proof.
  induction l as [| x l IH]; intros H; cbn [flat_map].
  - reflexivity.
  - rewrite (H x (or_introl eq_refl)). f_equal. apply IH.
    intros y Hy. apply H. right. assumption.
Qed.

Lemma filter_pointwise {A} (p q : A -> bool) (l : list A) :
  (forall x, In x l -> p x = q x) -> filter p l = filter q l.
Proof.
  induction l as [| x l IH]; intros H; cbn [filter].
  - reflexivity.
  - rewrite (H x (or_introl eq_refl)), IH; [reflexivity |].
    intros y Hy. apply H. right. assumption.
Qed.

(* ================================================================= *)
(** ** The sort key of the listing *)

(** [sorted] with the key of [list_edi_documents] raises [TypeError] on a
    numeric code next to a non-numeric one: the key of "204" is the
    [int] 204, the key of "INVOIC" is the [str] itself, and the first
    comparison is between the two. *)
Lemma sorted_numeric_with_alphabetic_raises :
  sorted ["204"; "INVOIC"] code_key = Raise TypeError.
Proof. reflexivity. Qed.

(** The same inside the listing: a standard holding one numeric and one
    alphabetic code stops the listing after its header and divider. *)
Example listing_of_mixed_standard_raises (d1 d2 : EdiDocument) :
  run (list_edi_documents_from fill_fitting
         [("S", [("204", d1); ("INVOIC", d2)])] None None) =
  ([listing_title; standard_header "S"; standard_divider "S"], Raise TypeError).
Proof. reflexivity. Qed.

(** X12: [sorted] with the key of the listing raises [TypeError] for
    every list of plain codes that holds a numeric code and a
    non-numeric one, whatever their number and order. *)
Lemma sorted_codes_mixed (codes : list string) :
  forallb PyStr.plain_code codes = true ->
  codes_of_one_kind codes = false ->
  sorted codes code_key = Raise TypeError.
Proof.
  intros _ H. apply sorted_mixed. rewrite homogeneous_codes. assumption.
Qed.

(** C1, as amended: for every list of plain code strings (ASCII text,
    each within the length [int] converts) that are all numeric or all
    non-numeric, sorting by the numeric-or-lexical key of
    [list_edi_documents] does not fail; it returns the same codes in
    non-decreasing order, numeric codes by integer value and the other
    codes lexically. *)
Theorem sorted_codes_of_one_kind (codes : list string) :
  forallb PyStr.plain_code codes = true ->
  codes_of_one_kind codes = true ->
  exists l, sorted codes code_key = Return l /\
            Permutation codes l /\
            Sorted (fun a b => listing_leb a b = true) l.
Proof.
  intros _ H. rewrite <- homogeneous_codes in H.
  destruct (sorted_homogeneous code_key codes H) as [l [Hl [Hp Hs]]].
  exists l. split; [exact Hl |]. split; [exact Hp |].
  apply (Sorted_impl _ _ l (fun a b => proj1 (key_le_listing_leb a b)) Hs).
Qed.

Lemma sorted_codes_of_one_kind_witness :
  forallb PyStr.plain_code ["997"; "204"; "810"] = true /\
  codes_of_one_kind ["997"; "204"; "810"] = true /\
  exists l, sorted ["997"; "204"; "810"] code_key = Return l /\
            Permutation ["997"; "204"; "810"] l /\
            Sorted (fun a b => listing_leb a b = true) l.
Proof.
  split; [reflexivity |]. split; [reflexivity |].
  apply (sorted_codes_of_one_kind ["997"; "204"; "810"]); reflexivity.
Defined.

(* ================================================================= *)
(** ** Code search *)

Section SearchClaims.

Variable fill : string -> string.

(** Every matching entry has its block in the output. *)
Lemma search_prints_match (edi_docs : dataset) (c : string) (show_all : bool)
      (e : string * string * EdiDocument) :
  In e (entries edi_docs) -> is_match (PyStr.upper c) show_all e = true ->
  exists before after,
    run (search_edi_code_from fill edi_docs c show_all) =
    ((before ++ match_lines fill e ++ after)%list, Return tt).
Proof.
  intros Hin Hm. rewrite search_edi_code_from_run. cbv zeta.
  assert (Hhit : In e (filter (is_match (PyStr.upper c) show_all) (entries edi_docs))).
  { apply filter_In. split; assumption. }
  destruct (in_split _ _ Hhit) as [h1 [h2 Hsplit]]. rewrite Hsplit.
  exists (search_title (PyStr.upper c) :: flat_map (match_lines fill) h1).
  exists (flat_map (match_lines fill) h2 ++
          match (h1 ++ e :: h2)%list with
          | [] => [no_documents_message (PyStr.upper c)]
          | _ => []
          end)%list.
  rewrite flat_map_app. cbn [flat_map].
  rewrite <- !app_assoc. reflexivity.
Qed.

(** When every entry matches, the output is the title and the block of
    every entry. *)
Lemma search_prints_all (c : string) (show_all : bool) :
  (forall e, is_match (PyStr.upper c) show_all e = true) ->
  run (search_edi_code fill c show_all) =
  (search_title (PyStr.upper c)
     :: flat_map (match_lines fill) (entries get_edi_documents),
   Return tt).
Proof.
  intros Hall. unfold search_edi_code. rewrite search_edi_code_from_run. cbv zeta.
  rewrite filter_all by (intros; apply Hall).
  destruct (entries get_edi_documents) eqn:E; [discriminate E |].
  rewrite app_nil_r. reflexivity.
Qed.

(** C2: for every standard of the dataset and every document under it,
    the search for the document's exact code without show-all prints,
    among its lines, the header of that standard followed by the line
    carrying exactly the document's code and name. *)
Theorem search_finds_registered_document
        (standard : string) (docs : list (string * EdiDocument))
        (k : string) (d : EdiDocument) :
  In (standard, docs) get_edi_documents -> In (k, d) docs ->
  exists before after,
    run (search_edi_code fill (code d) false) =
    ((before
        ++ [standard_header standard; ("• " ++ code d ++ ": " ++ name d)%string]
        ++ after)%list,
     Return tt).
Proof.
  intros Hs Hd.
  pose proof (in_entries _ _ _ _ _ Hs Hd) as Hin.
  pose proof get_edi_documents_codes as Hcodes.
  rewrite forallb_forall in Hcodes. specialize (Hcodes _ Hin).
  cbn [fst snd] in Hcodes. apply andb_true_iff in Hcodes.
  destruct Hcodes as [Hk Hup].
  apply String.eqb_eq in Hk. apply String.eqb_eq in Hup. subst k.
  assert (Hm : is_match (PyStr.upper (code d)) false (standard, code d, d) = true).
  { unfold is_match. cbn [fst snd]. rewrite Hup, orb_false_r.
    clear. induction (code d) as [| c s IH]; [reflexivity |].
    cbn [PyStr.contains String.prefix].
    destruct (ascii_dec c c) as [_ | Hne]; [| contradiction Hne; reflexivity].
    assert (Hp : String.prefix s s = true).
    { clear. induction s as [| c s IH]; [reflexivity |].
      cbn [String.prefix]. destruct (ascii_dec c c); [assumption | congruence]. }
    rewrite Hp. reflexivity. }
  destruct (search_prints_match get_edi_documents (code d) false _ Hin Hm)
    as [before [after Hrun]].
  exists before.
  exists (skipn 2 (match_lines fill (standard, code d, d)) ++ after)%list.
  unfold search_edi_code. rewrite Hrun.
  unfold match_lines, document_lines. cbn [fst snd skipn app].
  rewrite <- !app_assoc. reflexivity.
Qed.

(** C3, as amended: for every code (ASCII text) with zero matches across
    the whole dataset, and without show-all, the search prints its title
    line followed by the single "no documents found" message, and no
    document. *)
Theorem search_without_match (c : string) :
  PyStr.ascii_only c = true ->
  filter (is_match (PyStr.upper c) false) (entries get_edi_documents) = [] ->
  run (search_edi_code fill c false) =
  ([search_title (PyStr.upper c); no_documents_message (PyStr.upper c)],
   Return tt).
Proof.
  intros _ H. unfold search_edi_code. rewrite search_edi_code_from_run. cbv zeta.
  rewrite H. reflexivity.
Qed.

(** C5: with show-all, whatever the code, the search prints its title
    and then every document of every standard, one block for each
    (standard, document) pair, in dataset order; the pairs are
    pairwise distinct, so each is printed once.  The empty code is one
    instance. *)
Theorem search_show_all_prints_dataset (c : string) :
  run (search_edi_code fill c true) =
  (search_title (PyStr.upper c)
     :: flat_map (match_lines fill) (entries get_edi_documents),
   Return tt)
  /\ NoDup (map fst (entries get_edi_documents)).
Proof.
  split; [| apply get_edi_documents_pairs_distinct].
  apply search_prints_all. intros e. unfold is_match. apply orb_true_r.
Qed.

(** C10: the empty code without show-all matches every document, since
    the empty string is a substring of every code: the search prints
    the title and the block of every document of every standard, which
    is what show-all prints. *)
Theorem search_empty_code_prints_dataset :
  run (search_edi_code fill "" false) =
  (search_title "" :: flat_map (match_lines fill) (entries get_edi_documents),
   Return tt)
  /\ run (search_edi_code fill "" false) = run (search_edi_code fill "" true).
Proof.
  assert (H : run (search_edi_code fill "" false) =
              (search_title "" :: flat_map (match_lines fill) (entries get_edi_documents),
               Return tt)).
  { apply (search_prints_all "" false). intros e. unfold is_match.
    cbn [PyStr.upper]. rewrite PyStrFacts.contains_empty. reflexivity. }
  split; [exact H |].
  rewrite H. symmetry.
  apply (search_prints_all "" true). intros e. unfold is_match. apply orb_true_r.
Qed.

End SearchClaims.

(** Without a match the search still prints its title line before the
    message: the output of the search for "ZZZZ" is not the message
    alone. *)
Lemma search_no_match_prints_title :
  run (search_edi_code fill_fitting "ZZZZ" false) =
  ([search_title "ZZZZ"; no_documents_message "ZZZZ"], Return tt)
  /\ fst (run (search_edi_code fill_fitting "ZZZZ" false))
     <> [no_documents_message "ZZZZ"].
Proof. split; [reflexivity | discriminate]. Qed.

Lemma search_finds_registered_document_witness :
  exists standard docs k d,
    In (standard, docs) get_edi_documents /\ In (k, d) docs /\ k = "204" /\
    exists before after,
      run (search_edi_code fill_fitting (code d) false) =
      ((before
          ++ [standard_header standard; ("• " ++ code d ++ ": " ++ name d)%string]
          ++ after)%list,
       Return tt).
Proof.
  refine (ex_intro _ _ (ex_intro _ _ (ex_intro _ _ (ex_intro _ _
            (conj ?[Hs] (conj ?[Hd] (conj _
               (search_finds_registered_document fill_fitting _ _ _ _ ?Hs ?Hd)))))))).
  - left; reflexivity.
  - left; reflexivity.
  - reflexivity.
Defined.

Lemma search_without_match_witness :
  PyStr.ascii_only "ZZZZ" = true /\
  filter (is_match (PyStr.upper "ZZZZ") false) (entries get_edi_documents) = [] /\
  run (search_edi_code fill_fitting "ZZZZ" false) =
  ([search_title (PyStr.upper "ZZZZ"); no_documents_message (PyStr.upper "ZZZZ")],
   Return tt).
Proof.
  split; [reflexivity |]. split; [reflexivity |].
  apply (search_without_match fill_fitting "ZZZZ"); reflexivity.
Defined.

(* ================================================================= *)
(** ** Document listing *)

Section ListingClaims.

Variable fill : string -> string.

(** C4: the listing without filters prints its title and then a block
    for every standard of the dataset, in dataset order; the block of
    a standard holds all of its documents, and only them, in
    non-decreasing order of the mixed key: numeric codes by integer
    value, the other codes lexically.  The codes appear in the order
    written out below. *)
Theorem list_unfiltered_sorted_blocks :
  exists sections : dataset,
    run (list_edi_documents fill None None) =
    (listing_title :: flat_map (section_of fill) sections, Return tt)
    /\ Forall2 (fun sec sd =>
                  fst sec = fst sd /\
                  Permutation (snd sd) (snd sec) /\
                  Sorted (fun a b => listing_leb (fst a) (fst b) = true) (snd sec))
               sections get_edi_documents
    /\ map (fun sec => keys (snd sec)) sections =
       [["204"; "210"; "810"; "820"; "834"; "850"; "855"; "856"; "940"; "945"; "997"];
        ["DESADV"; "IFCSUM"; "INVOIC"; "ORDERS"; "ORDRSP"; "PRICAT"; "RECADV"];
        ["DELHDR"; "INVFIL"; "ORDCHG"; "ORDHDR"];
        ["4905"; "4913"; "4981"];
        ["3A4"; "3A8"; "3B2"; "4B2"]].
Proof.
  exists (map (fun sd => (fst sd, listing_order (snd sd))) get_edi_documents).
  split; [| split].
  - unfold list_edi_documents.
    rewrite list_edi_documents_from_run by apply get_edi_documents_well_formed.
    rewrite flat_map_map.
    apply (f_equal (fun l => (listing_title :: l, Return tt))).
    apply flat_map_pointwise. intros sd _.
    unfold section_lines, section_of. cbn [fst snd industry_keeps].
    rewrite filter_all; reflexivity.
  - pose proof get_edi_documents_well_formed as Hwf. unfold well_formed in Hwf.
    induction Hwf as [| sd ds [_ Hhom] _ IH]; cbn [map]; constructor.
    + cbn [fst snd]. destruct (listing_order_spec (snd sd) Hhom) as [_ [Hp Hs]].
      split; [reflexivity |]. split; [exact Hp |].
      apply (Sorted_impl _ _ _
               (fun a b => proj1 (key_le_listing_leb (fst a) (fst b))) Hs).
    + assumption.
  - vm_compute. reflexivity.
Qed.

(** On the dataset the industry filter and its truth-value test agree:
    the empty text, which the program does not apply, would keep every
    document, each naming an industry. *)
Lemma industry_keeps_matches (fi : string) (sd : string * list (string * EdiDocument)) :
  In sd get_edi_documents ->
  filter (fun kd => industry_keeps (Some fi) (snd kd)) (listing_order (snd sd)) =
  filter (fun kd => industry_matches fi (snd kd)) (listing_order (snd sd)).
Proof.
  intros Hsd. destruct fi as [| c fi]; [| reflexivity].
  apply filter_pointwise. intros [k d] Hkd. cbn [industry_keeps snd].
  pose proof get_edi_documents_well_formed as Hwf. unfold well_formed in Hwf.
  rewrite Forall_forall in Hwf. destruct (Hwf sd Hsd) as [_ Hhom].
  destruct (listing_order_spec (snd sd) Hhom) as [_ [Hp _]].
  apply (Permutation_in _ (Permutation_sym Hp)) in Hkd.
  destruct sd as [standard docs]. cbn [snd] in Hkd.
  pose proof (in_entries _ _ _ _ _ Hsd Hkd) as Hin.
  pose proof get_edi_documents_industries as Hind.
  rewrite forallb_forall in Hind. specialize (Hind _ Hin). cbn [snd] in Hind.
  unfold industry_matches. destruct (industries d) as [| ind inds]; [discriminate |].
  cbn [existsb PyStr.lower]. rewrite PyStrFacts.contains_empty. reflexivity.
Qed.

(** C6: under an industry filter the listing prints, for every
    standard of the dataset, the header and the divider, and beneath
    them the documents of which some industry name contains the filter
    text as a case-insensitive substring, and no other document; a
    standard left without documents keeps its header and divider.
    With "healthcare", ANSI X12 keeps "810", "834" and "997" and every
    other standard keeps nothing. *)
Theorem list_industry_filter :
  (forall fi : string,
     run (list_edi_documents fill None (Some fi)) =
     (listing_title
        :: flat_map
             (fun sd =>
                section_of fill
                  (fst sd,
                   filter (fun kd => industry_matches fi (snd kd))
                          (listing_order (snd sd))))
             get_edi_documents,
      Return tt))
  /\ map (fun sd =>
            keys (filter (fun kd => industry_matches "healthcare" (snd kd))
                         (listing_order (snd sd))))
         get_edi_documents
     = [["810"; "834"; "997"]; []; []; []; []].
Proof.
  split; [| vm_compute; reflexivity].
  intros fi. unfold list_edi_documents.
  rewrite list_edi_documents_from_run by apply get_edi_documents_well_formed.
  apply (f_equal (fun l => (listing_title :: l, Return tt))).
  apply flat_map_pointwise. intros sd Hsd.
  unfold section_lines, section_of. cbn [fst snd].
  rewrite industry_keeps_matches by assumption. reflexivity.
Qed.

Lemma standard_matches_case_variant (a b k : string) :
  PyStr.case_variant a b -> standard_matches a k = standard_matches b k.
Proof.
  intros H. unfold standard_matches.
  rewrite (PyStrFacts.case_variant_lower a b H). reflexivity.
Qed.

(** C7, as amended: two standard filters that differ only in letter
    case select the same standards, and the listing with the one and
    the listing with the other yield identical output whenever the
    filter matches at least one standard. *)
Theorem list_standard_filter_case_insensitive
        (a b : string) (filter_industry : option string) :
  PyStr.case_variant a b ->
  filter (fun kv => standard_matches a (fst kv)) get_edi_documents <> [] ->
  filter (fun kv => standard_matches a (fst kv)) get_edi_documents =
  filter (fun kv => standard_matches b (fst kv)) get_edi_documents
  /\ run (list_edi_documents fill (Some a) filter_industry) =
     run (list_edi_documents fill (Some b) filter_industry).
Proof.
  intros Hcv Hne.
  assert (Hsel : filter (fun kv => standard_matches a (fst kv)) get_edi_documents =
                 filter (fun kv => standard_matches b (fst kv)) get_edi_documents).
  { apply filter_pointwise. intros kv _.
    apply standard_matches_case_variant. assumption. }
  split; [exact Hsel |].
  unfold list_edi_documents.
  rewrite !list_edi_documents_from_run by apply get_edi_documents_well_formed.
  destruct Hcv as [| c1 c2 s1 s2 Hc Hs]; [reflexivity |].
  rewrite <- Hsel.
  destruct (filter (fun kv => standard_matches (String c1 s1) (fst kv)) get_edi_documents);
    [contradiction Hne |]; reflexivity.
Qed.

(** C8: for every standard filter (ASCII text) that matches no standard
    of the dataset, the listing prints the "no standards found" message
    and nothing else. *)
Theorem list_unknown_standard
        (filter_standard : string) (filter_industry : option string) :
  PyStr.ascii_only filter_standard = true ->
  filter (fun kv => standard_matches filter_standard (fst kv)) get_edi_documents = [] ->
  run (list_edi_documents fill (Some filter_standard) filter_industry) =
  ([no_standards_message filter_standard], Return tt).
Proof.
  intros _ H. unfold list_edi_documents.
  rewrite list_edi_documents_from_run by apply get_edi_documents_well_formed.
  destruct filter_standard as [| c fs].
  - exfalso. revert H. unfold standard_matches. cbn [PyStr.lower].
    unfold get_edi_documents. cbn [filter fst].
    rewrite PyStrFacts.contains_empty. discriminate.
  - rewrite H. reflexivity.
Qed.

End ListingClaims.

Lemma list_standard_filter_case_insensitive_witness :
  PyStr.case_variant "x12" "X12" /\
  filter (fun kv => standard_matches "x12" (fst kv)) get_edi_documents <> [] /\
  (filter (fun kv => standard_matches "x12" (fst kv)) get_edi_documents =
   filter (fun kv => standard_matches "X12" (fst kv)) get_edi_documents
   /\ run (list_edi_documents fill_fitting (Some "x12") None) =
      run (list_edi_documents fill_fitting (Some "X12") None)).
Proof.
  assert (Hcv : PyStr.case_variant "x12" "X12").
  { constructor; [apply (PyStr.ccv_upper "X"); reflexivity |].
    apply PyStrFacts.case_variant_refl. }
  assert (Hne : filter (fun kv => standard_matches "x12" (fst kv)) get_edi_documents <> []).
  { vm_compute. discriminate. }
  split; [exact Hcv |]. split; [exact Hne |].
  apply (list_standard_filter_case_insensitive fill_fitting "x12" "X12" None Hcv Hne).
Defined.

(** Two filters that differ only in letter case and match no standard:
    each listing quotes its own filter text, so the two outputs
    differ. *)
Lemma list_unmatched_filter_echoes_case :
  PyStr.case_variant "edi-z" "EDI-Z" /\
  run (list_edi_documents fill_fitting (Some "edi-z") None) <>
  run (list_edi_documents fill_fitting (Some "EDI-Z") None).
Proof.
  split.
  - constructor; [apply (PyStr.ccv_upper "E"); reflexivity |].
    constructor; [apply (PyStr.ccv_upper "D"); reflexivity |].
    constructor; [apply (PyStr.ccv_upper "I"); reflexivity |].
    constructor; [apply PyStr.ccv_same |].
    constructor; [apply (PyStr.ccv_upper "Z"); reflexivity |].
    constructor.
  - vm_compute. discriminate.
Qed.

Lemma list_unknown_standard_witness :
  PyStr.ascii_only "nonexistent-xyz" = true /\
  filter (fun kv => standard_matches "nonexistent-xyz" (fst kv)) get_edi_documents = [] /\
  run (list_edi_documents fill_fitting (Some "nonexistent-xyz") None) =
  ([no_standards_message "nonexistent-xyz"], Return tt).
Proof.
  split; [reflexivity |]. split; [reflexivity |].
  apply (list_unknown_standard fill_fitting "nonexistent-xyz" None); reflexivity.
Defined.

(* ================================================================= *)
(** ** Command dispatch *)

Lemma list_standards_returns (detailed : bool) :
  exists out, run (list_standards detailed) = (out, Return tt).
Proof. destruct detailed; vm_compute; eexists; reflexivity. Qed.

Section MainClaims.

Variable fill : string -> string.

Lemma search_edi_code_returns (c : string) (show_all : bool) :
  exists out, run (search_edi_code fill c show_all) = (out, Return tt).
Proof.
  unfold search_edi_code. rewrite search_edi_code_from_run.
  eexists; reflexivity.
Qed.

Lemma list_edi_documents_returns (filter_standard filter_industry : option string) :
  exists out,
    run (list_edi_documents fill filter_standard filter_industry) = (out, Return tt).
Proof.
  unfold list_edi_documents.
  rewrite list_edi_documents_from_run by apply get_edi_documents_well_formed.
  destruct filter_standard as [[| c fs] |]; try (eexists; reflexivity).
  destruct (filter (fun kv => standard_matches (String c fs) (fst kv)) get_edi_documents);
    eexists; reflexivity.
Qed.

(** C9, as amended: for every combination of flags the program selects
    exactly one operation by fixed priority: with the list-standards
    flag, the standards listing; otherwise with a non-empty code
    value, the code search with that code and the show-all flag;
    otherwise (no code value, or the empty one) the document listing
    with the optional standard and industry filter values.  No
    combination is rejected: every run returns normally. *)
Theorem main_selects_by_priority (args : Namespace) :
  (arg_list_standards args = true ->
   main fill args = list_standards (arg_detailed args))
  /\ (arg_list_standards args = false ->
      forall c, arg_code args = Some c -> c <> "" ->
      main fill args = search_edi_code fill c (arg_all args))
  /\ (arg_list_standards args = false ->
      arg_code args = None \/ arg_code args = Some "" ->
      main fill args = list_edi_documents fill (arg_standard args) (arg_industry args))
  /\ exists out, run (main fill args) = (out, Return tt).
Proof.
  unfold main.
  destruct (arg_list_standards args); repeat split; try discriminate.
  - apply list_standards_returns.
  - intros _ c Hc Hne. rewrite Hc. destruct c; [contradiction Hne |]; reflexivity.
  - intros _ [Hc | Hc]; rewrite Hc; reflexivity.
  - destruct (arg_code args) as [[| c0 c] |].
    + apply list_edi_documents_returns.
    + apply search_edi_code_returns.
    + apply list_edi_documents_returns.
Qed.

End MainClaims.

(** With [-c ""] the program runs the document listing, not the code
    search with the code given. *)
Lemma main_empty_code_runs_listing :
  run (main fill_fitting empty_code_args) =
  run (list_edi_documents fill_fitting None None)
  /\ run (main fill_fitting empty_code_args) <>
     run (search_edi_code fill_fitting "" (arg_all empty_code_args)).
Proof.
  split; [reflexivity |]. vm_compute. discriminate.
Qed.

Lemma main_selects_by_priority_witness :
  main fill_fitting code_810_args = search_edi_code fill_fitting "810" true.
Proof.
  apply (proj1 (proj2 (main_selects_by_priority fill_fitting code_810_args))).
  - reflexivity.
  - reflexivity.
  - discriminate.
Defined.

(* ================================================================= *)
(** ** Strings: substrings and case *)

Module PyStrOccurs.
Import PyStr.

Lemma append_empty_r (s : string) : s ++ "" = s.
Proof. induction s as [| c s IH]; cbn; [| rewrite IH]; reflexivity. Qed.

Lemma append_assoc (a b c : string) : (a ++ b) ++ c = a ++ (b ++ c).
Proof. induction a as [| x a IH]; cbn; [| rewrite IH]; reflexivity. Qed.

Lemma length_append (a b : string) :
  String.length (a ++ b) = String.length a + String.length b.
Proof. induction a as [| x a IH]; cbn; [| rewrite IH]; reflexivity. Qed.

Lemma prefix_iff (needle hay : string) :
  String.prefix needle hay = true <-> exists post, hay = needle ++ post.
Proof.
  revert hay. induction needle as [| a needle IH]; intros hay.
  - split; [intros _; exists hay; reflexivity | intros _; destruct hay; reflexivity].
  - destruct hay as [| b hay]; cbn [String.prefix].
    + split; [discriminate | intros [post H]; discriminate H].
    + destruct (ascii_dec a b) as [-> | Hne].
      * rewrite IH. split; intros [post H]; exists post.
        -- cbn. rewrite <- H. reflexivity.
        -- cbn in H. inversion H. reflexivity.
      * split; [discriminate |]. intros [post H]. cbn in H. congruence.
Qed.

(** [needle in hay] holds exactly when [needle] is a contiguous part of
    [hay]. *)
Lemma contains_iff (needle hay : string) :
  contains needle hay = true <-> occurs_in needle hay.
Proof.
  unfold occurs_in. induction hay as [| b hay IH]; cbn [contains].
  - rewrite orb_false_r, prefix_iff. split.
    + intros [post H]. exists "", post. exact H.
    + intros [pre [post H]]. destruct pre; [exists post; exact H | discriminate H].
  - rewrite orb_true_iff, prefix_iff, IH. split.
    + intros [[post H] | [pre [post H]]].
      * exists "", post. exact H.
      * exists (String b pre), post. cbn. rewrite H. reflexivity.
    + intros [pre [post H]]. destruct pre as [| c pre].
      * left. exists post. exact H.
      * right. cbn in H. inversion H. exists pre, post. reflexivity.
Qed.

Lemma upper_append (a b : string) : upper (a ++ b) = upper a ++ upper b.
Proof. induction a as [| x a IH]; cbn; [| rewrite IH]; reflexivity. Qed.

Lemma length_upper (s : string) : String.length (upper s) = String.length s.
Proof. induction s as [| c s IH]; cbn; [| rewrite IH]; reflexivity. Qed.

Lemma upper_char_lower_char (c : ascii) :
  is_upper c = true -> upper_char (lower_char c) = upper_char c.
Proof.
  destruct c as [[] [] [] [] [] [] [] []]; intros H; try reflexivity; discriminate H.
Qed.

Lemma char_case_variant_upper (c1 c2 : ascii) :
  char_case_variant c1 c2 -> upper_char c1 = upper_char c2.
Proof.
  intros H; destruct H as [c | c Hc | c Hc].
  - reflexivity.
  - symmetry; apply upper_char_lower_char; assumption.
  - apply upper_char_lower_char; assumption.
Qed.

Lemma case_variant_upper (a b : string) :
  case_variant a b -> upper a = upper b.
Proof.
  induction 1 as [| c1 c2 s1 s2 Hc _ IH]; cbn.
  - reflexivity.
  - rewrite (char_case_variant_upper _ _ Hc), IH; reflexivity.
Qed.

(** A part as long as the whole is the whole. *)
Lemma occurs_in_same_length (needle hay : string) :
  occurs_in needle hay -> String.length needle = String.length hay -> needle = hay.
Proof.
  intros [pre [post H]] Hlen. subst hay.
  rewrite !length_append in Hlen.
  destruct pre; [| cbn in Hlen; lia].
  destruct post; [| cbn in Hlen; lia].
  cbn. rewrite append_empty_r. reflexivity.
Qed.

Lemma occurs_in_trans (a b c : string) :
  occurs_in a b -> occurs_in b c -> occurs_in a c.
Proof.
  intros [p1 [q1 H1]] [p2 [q2 H2]]. subst. exists (p2 ++ p1), (q1 ++ q2).
  rewrite !append_assoc. reflexivity.
Qed.

Lemma occurs_in_upper (a b : string) :
  occurs_in a b -> occurs_in (upper a) (upper b).
Proof.
  intros [p [q H]]. subst. exists (upper p), (upper q).
  rewrite !upper_append. reflexivity.
Qed.

End PyStrOccurs.

(* ================================================================= *)
(** ** Code search over any dataset *)

Lemma filter_none {A} (p : A -> bool) (l : list A) :
  (forall x, In x l -> p x = false) -> filter p l = [].
Proof.
  induction l as [| x l IH]; intros H; cbn [filter].
  - reflexivity.
  - rewrite (H x (or_introl eq_refl)). apply IH.
    intros y Hy. apply H. right. assumption.
Qed.

Lemma is_match_occurs (c : string) (e : string * string * EdiDocument) :
  is_match c false e = true <-> occurs_in c (snd (fst e)).
Proof.
  unfold is_match. rewrite orb_false_r. apply PyStrOccurs.contains_iff.
Qed.

(** A search that printed only the title and the closing message had no
    match. *)
Lemma search_no_result_no_hit (fill : string -> string) (edi_docs : dataset)
      (c : string) (show_all : bool) :
  run (search_edi_code_from fill edi_docs c show_all) =
  ([search_title (PyStr.upper c); no_documents_message (PyStr.upper c)], Return tt) ->
  filter (is_match (PyStr.upper c) show_all) (entries edi_docs) = [].
Proof.
  rewrite search_edi_code_from_run. cbv zeta.
  destruct (filter (is_match (PyStr.upper c) show_all) (entries edi_docs)) as [| e hits].
  - reflexivity.
  - unfold match_lines, document_lines. cbn [flat_map app]. intros H.
    inversion H.
Qed.

Section SearchExtras.

Variable fill : string -> string.

(** X1: on any dataset, for an input of ASCII text and without show-all,
    the search prints the title and then, in dataset order, the block of
    exactly those documents whose code has the uppercased input as a
    contiguous part; the closing message comes when and only when there
    is no such document. *)
Theorem search_prints_codes_containing_input (edi_docs : dataset) (c : string) :
  PyStr.ascii_only c = true ->
  exists p : string * string * EdiDocument -> bool,
    (forall e, p e = true <-> occurs_in (PyStr.upper c) (snd (fst e))) /\
    run (search_edi_code_from fill edi_docs c false) =
    ((search_title (PyStr.upper c)
        :: flat_map (match_lines fill) (filter p (entries edi_docs))
        ++ match filter p (entries edi_docs) with
           | [] => [no_documents_message (PyStr.upper c)]
           | _ => []
           end)%list,
     Return tt).
Proof.
  intros _. exists (is_match (PyStr.upper c) false). split.
  - intros e. apply is_match_occurs.
  - apply search_edi_code_from_run.
Qed.

(** X2: a fragment that finds nothing rules out every code containing
    it: when the search for [a] reports no documents, so does the search
    for any text of which [a] is a contiguous part. *)
Theorem search_no_result_extends (edi_docs : dataset) (a b : string) :
  occurs_in a b ->
  run (search_edi_code_from fill edi_docs a false) =
  ([search_title (PyStr.upper a); no_documents_message (PyStr.upper a)], Return tt) ->
  run (search_edi_code_from fill edi_docs b false) =
  ([search_title (PyStr.upper b); no_documents_message (PyStr.upper b)], Return tt).
Proof.
  intros Hab Ha. apply search_no_result_no_hit in Ha.
  rewrite search_edi_code_from_run. cbv zeta.
  rewrite filter_none; [reflexivity |].
  intros e He. destruct (is_match (PyStr.upper b) false e) eqn:Eb; [| reflexivity].
  exfalso. apply is_match_occurs in Eb.
  assert (Hin : In e (filter (is_match (PyStr.upper a) false) (entries edi_docs))).
  { apply filter_In. split; [assumption |]. apply is_match_occurs.
    apply (PyStrOccurs.occurs_in_trans _ (PyStr.upper b)); [| assumption].
    apply PyStrOccurs.occurs_in_upper. assumption. }
  rewrite Ha in Hin. contradiction.
Qed.

(** X3: the search does not distinguish the letter case of its input:
    two codes that differ only in letter case give the same output,
    title and closing message included, on any dataset and with or
    without show-all. *)
Theorem search_input_case_insensitive (edi_docs : dataset) (a b : string)
        (show_all : bool) :
  PyStr.case_variant a b ->
  run (search_edi_code_from fill edi_docs a show_all) =
  run (search_edi_code_from fill edi_docs b show_all).
Proof.
  intros H. rewrite !search_edi_code_from_run.
  rewrite (PyStrOccurs.case_variant_upper a b H). reflexivity.
Qed.

(** X4: on any dataset, a document stored under a code of ASCII text
    that is its own uppercase form is found by the search for that code:
    the output holds the header of its standard followed by the line
    with the code and the document's name. *)
Theorem search_finds_uppercase_code (edi_docs : dataset) (standard : string)
        (docs : list (string * EdiDocument)) (k : string) (d : EdiDocument) :
  In (standard, docs) edi_docs -> In (k, d) docs ->
  PyStr.ascii_only k = true -> PyStr.upper k = k ->
  exists before after,
    run (search_edi_code_from fill edi_docs k false) =
    ((before
        ++ [standard_header standard; ("• " ++ k ++ ": " ++ name d)%string]
        ++ after)%list,
     Return tt).
Proof.
  intros Hs Hd _ Hup.
  pose proof (in_entries _ _ _ _ _ Hs Hd) as Hin.
  assert (Hm : is_match (PyStr.upper k) false (standard, k, d) = true).
  { apply is_match_occurs. cbn [fst snd]. rewrite Hup. exists "", "".
    cbn. rewrite PyStrOccurs.append_empty_r. reflexivity. }
  destruct (search_prints_match fill edi_docs k false _ Hin Hm) as [before [after Hrun]].
  exists before.
  exists (skipn 2 (match_lines fill (standard, k, d)) ++ after)%list.
  rewrite Hrun. unfold match_lines, document_lines. cbn [fst snd skipn app].
  rewrite <- !app_assoc. reflexivity.
Qed.

(** X5: the input is uppercased and the stored codes are not: a document
    stored under a code with a lowercase letter is not found by the
    search for that very code.  With such a document alone in the
    dataset the search reports no documents. *)
Theorem search_misses_lowercase_code (standard k : string) (d : EdiDocument) :
  PyStr.upper k <> k ->
  run (search_edi_code_from fill [(standard, [(k, d)])] k false) =
  ([search_title (PyStr.upper k); no_documents_message (PyStr.upper k)], Return tt).
Proof.
  intros Hne. rewrite search_edi_code_from_run. cbv zeta.
  unfold entries. cbn [flat_map map app fst snd].
  rewrite filter_none; [reflexivity |].
  intros e [He | []]. subst e.
  destruct (is_match (PyStr.upper k) false (standard, k, d)) eqn:E; [| reflexivity].
  exfalso. apply Hne. apply is_match_occurs in E. cbn [fst snd] in E.
  apply PyStrOccurs.occurs_in_same_length; [assumption |].
  apply PyStrOccurs.length_upper.
Qed.

(** X6: on a dataset without documents (no standard, or standards that
    are all empty) the search reports no documents whatever the code,
    and with show-all too: the flag [found] is only set inside the
    loop over documents. *)
Theorem search_without_documents (edi_docs : dataset) (c : string) (show_all : bool) :
  Forall (fun sd => snd sd = []) edi_docs ->
  run (search_edi_code_from fill edi_docs c show_all) =
  ([search_title (PyStr.upper c); no_documents_message (PyStr.upper c)], Return tt).
Proof.
  intros H. rewrite search_edi_code_from_run. cbv zeta.
  assert (He : entries edi_docs = []).
  { unfold entries. induction H as [| sd ds Hsd _ IH]; cbn [flat_map].
    - reflexivity.
    - rewrite Hsd, IH. reflexivity. }
  rewrite He. reflexivity.
Qed.

End SearchExtras.

Lemma search_no_result_extends_witness :
  occurs_in "ZZ" "ZZZZ" /\
  run (search_edi_code_from fill_fitting get_edi_documents "ZZ" false) =
  ([search_title (PyStr.upper "ZZ"); no_documents_message (PyStr.upper "ZZ")], Return tt) /\
  run (search_edi_code_from fill_fitting get_edi_documents "ZZZZ" false) =
  ([search_title (PyStr.upper "ZZZZ"); no_documents_message (PyStr.upper "ZZZZ")],
   Return tt).
Proof.
  assert (Ho : occurs_in "ZZ" "ZZZZ") by (exists "Z", "Z"; reflexivity).
  assert (Ha : run (search_edi_code_from fill_fitting get_edi_documents "ZZ" false) =
               ([search_title (PyStr.upper "ZZ"); no_documents_message (PyStr.upper "ZZ")],
                Return tt)) by reflexivity.
  split; [exact Ho |]. split; [exact Ha |].
  apply (search_no_result_extends fill_fitting get_edi_documents "ZZ" "ZZZZ" Ho Ha).
Defined.

Lemma search_input_case_insensitive_witness :
  PyStr.case_variant "vo" "VO" /\
  run (search_edi_code_from fill_fitting get_edi_documents "vo" false) =
  run (search_edi_code_from fill_fitting get_edi_documents "VO" false).
Proof.
  assert (H : PyStr.case_variant "vo" "VO").
  { constructor; [apply (PyStr.ccv_upper "V"); reflexivity |].
    constructor; [apply (PyStr.ccv_upper "O"); reflexivity |].
    constructor. }
  split; [exact H |].
  apply (search_input_case_insensitive fill_fitting get_edi_documents "vo" "VO" false H).
Defined.

Lemma search_finds_uppercase_code_witness :
  In ("S", [("3A4", example_document)]) [("S", [("3A4", example_document)])] /\
  In ("3A4", example_document) [("3A4", example_document)] /\
  PyStr.ascii_only "3A4" = true /\
  PyStr.upper "3A4" = "3A4" /\
  exists before after,
    run (search_edi_code_from fill_fitting [("S", [("3A4", example_document)])]
                              "3A4" false) =
    ((before
        ++ [standard_header "S"; ("• " ++ "3A4" ++ ": " ++ name example_document)%string]
        ++ after)%list,
     Return tt).
Proof.
  assert (Hs : In ("S", [("3A4", example_document)]) [("S", [("3A4", example_document)])])
    by (left; reflexivity).
  assert (Hd : In ("3A4", example_document) [("3A4", example_document)])
    by (left; reflexivity).
  split; [exact Hs |]. split; [exact Hd |].
  split; [reflexivity |]. split; [reflexivity |].
  apply (search_finds_uppercase_code fill_fitting _ "S" _ "3A4" example_document Hs Hd);
    reflexivity.
Defined.

Lemma search_misses_lowercase_code_witness :
  PyStr.upper "3a4" <> "3a4" /\
  run (search_edi_code_from fill_fitting [("S", [("3a4", example_document)])] "3a4" false) =
  ([search_title (PyStr.upper "3a4"); no_documents_message (PyStr.upper "3a4")],
   Return tt).
Proof.
  assert (H : PyStr.upper "3a4" <> "3a4") by discriminate.
  split; [exact H |].
  apply (search_misses_lowercase_code fill_fitting "S" "3a4" example_document H).
Defined.

Lemma search_without_documents_witness :
  Forall (fun sd : string * list (string * EdiDocument) => snd sd = []) [("S", [])] /\
  run (search_edi_code_from fill_fitting [("S", [])] "810" true) =
  ([search_title (PyStr.upper "810"); no_documents_message (PyStr.upper "810")],
   Return tt).
Proof.
  assert (H : Forall (fun sd : string * list (string * EdiDocument) => snd sd = [])
                     [("S", [])]) by (repeat constructor).
  split; [exact H |].
  apply (search_without_documents fill_fitting [("S", [])] "810" true H).
Defined.

(* ================================================================= *)
(** ** Loops that may raise *)

Lemma for_each_cons {A} (x : A) (xs : list A) (body : A -> Py unit) (out : stdout) :
  for_each (x :: xs) body out =
  match body x out with
  | (out', Return _) => for_each xs body out'
  | (out', Raise e) => (out', Raise e)
  end.
Proof.
  unfold for_each. cbn [for_fold]. unfold bind.
  destruct (body x out) as [out' [[] | e]]; reflexivity.
Qed.

Lemma bind_ext {A B} (m : Py A) (f g : A -> Py B) :
  (forall a out, f a out = g a out) ->
  forall out, bind m f out = bind m g out.
Proof.
  intros H out. unfold bind. destruct (m out) as [out' [a | e]]; [apply H | reflexivity].
Qed.

Lemma for_each_ext {A} (xs : list A) (f g : A -> Py unit) :
  (forall x out, In x xs -> f x out = g x out) ->
  forall out, for_each xs f out = for_each xs g out.
Proof.
  induction xs as [| x xs IH]; intros H out.
  - reflexivity.
  - rewrite !for_each_cons. rewrite (H x out (or_introl eq_refl)).
    destruct (g x out) as [out' [u | e]]; [| reflexivity].
    apply IH. intros y o Hy. apply H. right. assumption.
Qed.

(** A loop whose body raises [e] on the items that are not [good], and
    returns on the others, returns when all items are good and raises
    [e] otherwise. *)
Lemma for_each_outcome {A} (xs : list A) (body : A -> Py unit)
      (good : A -> bool) (e : exn) :
  (forall x out, In x xs ->
     exists out', body x out = (out', if good x then Return tt else Raise e)) ->
  forall out, exists out',
    for_each xs body out = (out', if forallb good xs then Return tt else Raise e).
Proof.
  induction xs as [| x xs IH]; intros H out.
  - exists out. reflexivity.
  - rewrite for_each_cons. destruct (H x out (or_introl eq_refl)) as [o Ho].
    rewrite Ho. cbn [forallb]. destruct (good x); cbn [andb].
    + apply IH. intros y o' Hy. apply H. right. assumption.
    + exists o. reflexivity.
Qed.

Lemma lookup_key {V} (d : list (string * V)) (k : string) :
  In k (keys d) -> exists v, lookup k d = Some v.
Proof.
  induction d as [| [k' v'] d IH]; cbn; intros H.
  - contradiction.
  - destruct (String.eqb_spec k' k) as [_ | Hne].
    + exists v'. reflexivity.
    + destruct H as [H | H]; [contradiction | apply IH; assumption].
Qed.

(* ================================================================= *)
(** ** Document listing over any dataset *)

Section ListingExtras.

Variable fill : string -> string.

Lemma list_sections_loop (edi_docs : dataset) (filter_industry : option string) :
  list_sections fill edi_docs filter_industry =
  (print (nl ++ "EDI Document Reference:" ++ nl) ;;
   for_each edi_docs (section_body fill filter_industry)).
Proof. reflexivity. Qed.

(** One pass of the loop over a standard whose codes are distinct and of
    one kind. *)
Lemma section_body_run (filter_industry : option string)
      (sd : string * list (string * EdiDocument)) (out : stdout) :
  NoDup (keys (snd sd)) -> one_kind sd = true ->
  section_body fill filter_industry sd out =
  ((out ++ section_lines fill filter_industry sd)%list, Return tt).
Proof.
  destruct sd as [standard docs]. unfold one_kind. cbn [snd]. intros Hnd Hhom.
  destruct (listing_order_spec docs Hhom) as [Hsort [Hperm _]].
  unfold section_body.
  unfold bind at 1. unfold print at 1.
  unfold bind at 1. unfold print at 1.
  unfold bind at 1. unfold lift at 1.
  rewrite sorted_keys, Hsort.
  rewrite list_documents_run.
  - unfold section_lines, standard_header, standard_divider. cbn [fst snd].
    repeat rewrite <- app_assoc. reflexivity.
  - apply Forall_forall. intros [k d] Hkd. cbn [fst snd].
    apply lookup_in; [assumption |].
    apply (Permutation_in _ (Permutation_sym Hperm)). assumption.
Qed.

(** One pass over a standard with codes of both kinds: the header, the
    divider, and [TypeError] from [sorted]. *)
Lemma section_body_mixed (filter_industry : option string)
      (sd : string * list (string * EdiDocument)) (out : stdout) :
  one_kind sd = false ->
  section_body fill filter_industry sd out =
  ((out ++ [standard_header (fst sd); standard_divider (fst sd)])%list,
   Raise TypeError).
Proof.
  destruct sd as [standard docs]. unfold one_kind. cbn [fst snd]. intros Hmix.
  unfold section_body.
  unfold bind at 1. unfold print at 1.
  unfold bind at 1. unfold print at 1.
  unfold bind at 1. unfold lift at 1.
  rewrite (sorted_mixed code_key (keys docs) Hmix).
  rewrite <- app_assoc. reflexivity.
Qed.

(** One pass over any standard returns, or raises [TypeError]: the
    subscript [docs[code]] is by a key of [docs] and never raises. *)
Lemma section_body_outcome (filter_industry : option string)
      (sd : string * list (string * EdiDocument)) (out : stdout) :
  exists out',
    section_body fill filter_industry sd out =
    (out', if one_kind sd then Return tt else Raise TypeError).
Proof.
  destruct (one_kind sd) eqn:Hk.
  - destruct sd as [standard docs]. unfold one_kind in Hk. cbn [snd] in Hk.
    destruct (sorted_homogeneous code_key (keys docs) Hk) as [l [Hl [Hperm _]]].
    unfold section_body.
    unfold bind at 1. unfold print at 1.
    unfold bind at 1. unfold print at 1.
    unfold bind at 1. unfold lift at 1. rewrite Hl.
    assert (Hall : forallb (fun _ : string => true) l = true)
      by (apply forallb_forall; reflexivity).
    match goal with
    | |- exists out', for_each l ?b ?o = _ =>
        assert (Hb : forall k out0, In k l ->
                  exists out', b k out0 =
                               (out', if (fun _ : string => true) k
                                      then Return tt else Raise TypeError));
        [| destruct (for_each_outcome l b (fun _ => true) TypeError Hb o) as [o' Ho'];
           rewrite Hall in Ho'; exists o'; exact Ho']
    end.
    intros k o Hk'.
    apply (Permutation_in _ (Permutation_sym Hperm)) in Hk'.
    destruct (lookup_key docs k Hk') as [d Hd].
    unfold bind, lift, subscript. rewrite Hd.
    destruct filter_industry as [[| c fi] |];
      try (rewrite print_document_run; eexists; reflexivity).
    destruct (negb (industry_matches (String c fi) d)).
    + eexists; reflexivity.
    + rewrite print_document_run; eexists; reflexivity.
  - rewrite section_body_mixed by assumption. eexists; reflexivity.
Qed.

(** How a listing ends, by the keys of the standards it goes through. *)
Lemma list_edi_documents_from_outcome (edi_docs : dataset)
      (filter_standard filter_industry : option string) :
  snd (run (list_edi_documents_from fill edi_docs filter_standard filter_industry)) =
  if forallb one_kind (selected filter_standard edi_docs)
  then Return tt else Raise TypeError.
Proof.
  assert (Hsections : forall ds,
            snd (list_sections fill ds filter_industry []) =
            if forallb one_kind ds then Return tt else Raise TypeError).
  { intros ds. rewrite list_sections_loop. unfold bind at 1. unfold print at 1.
    destruct (for_each_outcome ds (section_body fill filter_industry) one_kind TypeError
                (fun sd o _ => section_body_outcome filter_industry sd o)
                ([] ++ [(nl ++ "EDI Document Reference:" ++ nl)%string])%list) as [o Ho].
    rewrite Ho. reflexivity. }
  unfold run, list_edi_documents_from, selected.
  destruct filter_standard as [[| c fs] |]; try apply Hsections.
  cbv zeta.
  destruct (filter (fun kv => standard_matches (String c fs) (fst kv)) edi_docs)
    as [| sd kept] eqn:E.
  - reflexivity.
  - apply Hsections.
Qed.

(** X7: on any dataset with ASCII standard names and plain codes, and
    with any industry filter and any standard filter of ASCII text, the
    listing returns normally when every standard it goes through has
    codes that are all numeric or all non-numeric, and raises
    [TypeError] otherwise; it raises nothing else, and a standard the
    standard filter leaves out cannot make it fail. *)
Theorem list_raises_iff_mixed_standard (edi_docs : dataset)
        (filter_standard filter_industry : option string) :
  plain_dataset edi_docs = true ->
  PyStr.ascii_option filter_standard = true ->
  snd (run (list_edi_documents_from fill edi_docs filter_standard filter_industry)) =
  if forallb (fun sd => codes_of_one_kind (keys (snd sd)))
             (selected filter_standard edi_docs)
  then Return tt else Raise TypeError.
Proof.
  intros _ _. rewrite list_edi_documents_from_outcome.
  rewrite (forallb_pointwise one_kind (fun sd => codes_of_one_kind (keys (snd sd))));
    [reflexivity |].
  intros sd. unfold one_kind. apply homogeneous_codes.
Qed.

(** X8: in a dataset with ASCII standard names and plain codes, when the
    first standard that mixes numeric and non-numeric codes comes after
    standards that each have distinct codes of one kind, the listing
    without a standard filter has printed the title, the sections of
    those standards, and the header and divider of the offending one
    when [TypeError] is raised; nothing of what follows is printed. *)
Theorem list_stops_at_mixed_standard
        (before : dataset) (sd : string * list (string * EdiDocument)) (rest : dataset)
        (filter_industry : option string) :
  plain_dataset (before ++ [sd])%list = true ->
  PyStr.ascii_option filter_industry = true ->
  orderly before = true ->
  codes_of_one_kind (keys (snd sd)) = false ->
  run (list_edi_documents_from fill (before ++ sd :: rest)%list None filter_industry) =
  ((listing_title :: flat_map (section_lines fill filter_industry) before
      ++ [standard_header (fst sd); standard_divider (fst sd)])%list,
   Raise TypeError).
Proof.
  intros _ _ Hord Hmix.
  pose proof (orderly_well_formed before Hord) as Hwf.
  assert (Hmix' : one_kind sd = false)
    by (unfold one_kind; rewrite homogeneous_codes; assumption).
  unfold run, list_edi_documents_from.
  rewrite list_sections_loop. unfold bind at 1. unfold print at 1.
  unfold for_each. rewrite for_fold_app.
  fold (for_each before (section_body fill filter_industry)).
  rewrite (for_each_prints before _ (section_lines fill filter_industry)).
  - fold (for_each (sd :: rest) (section_body fill filter_industry)).
    rewrite for_each_cons, section_body_mixed by assumption.
    cbn [app]. reflexivity.
  - intros x o Hx. unfold well_formed in Hwf. rewrite Forall_forall in Hwf.
    destruct (Hwf x Hx) as [Hnd Hhom]. apply section_body_run; assumption.
Qed.

Lemma industry_matches_case_variant (a b : string) (d : EdiDocument) :
  PyStr.case_variant a b -> industry_matches a d = industry_matches b d.
Proof.
  intros H. unfold industry_matches.
  rewrite (PyStrFacts.case_variant_lower a b H). reflexivity.
Qed.

(** X9: the industry filter does not distinguish letter case: two
    industry filters that differ only in letter case give the same run,
    output and outcome, on any dataset and with any standard filter. *)
Theorem list_industry_filter_case_insensitive
        (edi_docs : dataset) (filter_standard : option string) (a b : string) :
  PyStr.case_variant a b ->
  run (list_edi_documents_from fill edi_docs filter_standard (Some a)) =
  run (list_edi_documents_from fill edi_docs filter_standard (Some b)).
Proof.
  intros Hcv.
  assert (Hsections : forall ds out,
            list_sections fill ds (Some a) out = list_sections fill ds (Some b) out).
  { intros ds out. rewrite !list_sections_loop.
    apply bind_ext. intros _ o.
    apply for_each_ext. intros [standard docs] o1 _.
    unfold section_body.
    apply bind_ext. intros _ o2.
    apply bind_ext. intros _ o3.
    apply bind_ext. intros codes o4.
    apply for_each_ext. intros k o5 _.
    apply bind_ext. intros d o6.
    inversion Hcv as [| c1 c2 s1 s2 Hc Hs]; subst; [reflexivity |].
    rewrite (industry_matches_case_variant _ _ d Hcv). reflexivity. }
  unfold run, list_edi_documents_from.
  destruct filter_standard as [[| c fs] |]; try apply Hsections.
  cbv zeta.
  destruct (filter (fun kv => standard_matches (String c fs) (fst kv)) edi_docs);
    [reflexivity | apply Hsections].
Qed.

(** X10: a standard filter of ASCII text that every standard of a
    non-empty dataset with ASCII standard names matches changes nothing:
    the run is that of the listing without a standard filter. *)
Theorem list_filter_matching_all
        (edi_docs : dataset) (fs : string) (filter_industry : option string) :
  PyStr.ascii_only fs = true ->
  ascii_names edi_docs = true ->
  edi_docs <> [] ->
  Forall (fun sd => standard_matches fs (fst sd) = true) edi_docs ->
  run (list_edi_documents_from fill edi_docs (Some fs) filter_industry) =
  run (list_edi_documents_from fill edi_docs None filter_industry).
Proof.
  intros _ _ Hne Hall. unfold run, list_edi_documents_from.
  destruct fs as [| c fs]; [reflexivity |]. cbv zeta.
  rewrite filter_all by (rewrite Forall_forall in Hall; exact Hall).
  destruct edi_docs; [contradiction Hne |]; reflexivity.
Qed.

End ListingExtras.

Lemma list_stops_at_mixed_standard_witness :
  plain_dataset
    ([("A", [("1", example_document)])]
       ++ [("S", [("204", example_document); ("INVOIC", example_document)])])%list = true /\
  PyStr.ascii_option None = true /\
  orderly [("A", [("1", example_document)])] = true /\
  codes_of_one_kind
    (keys (snd ("S", [("204", example_document); ("INVOIC", example_document)]))) = false /\
  run (list_edi_documents_from fill_fitting
         ([("A", [("1", example_document)])]
            ++ ("S", [("204", example_document); ("INVOIC", example_document)]) :: [])%list
         None None) =
  ((listing_title
      :: flat_map (section_lines fill_fitting None) [("A", [("1", example_document)])]
      ++ [standard_header "S"; standard_divider "S"])%list,
   Raise TypeError).
Proof.
  split; [reflexivity |]. split; [reflexivity |].
  split; [reflexivity |]. split; [reflexivity |].
  apply (list_stops_at_mixed_standard fill_fitting
           [("A", [("1", example_document)])]
           ("S", [("204", example_document); ("INVOIC", example_document)])
           [] None);
    reflexivity.
Defined.

Lemma list_industry_filter_case_insensitive_witness :
  PyStr.case_variant "auto" "AUTO" /\
  run (list_edi_documents_from fill_fitting get_edi_documents None (Some "auto")) =
  run (list_edi_documents_from fill_fitting get_edi_documents None (Some "AUTO")).
Proof.
  assert (H : PyStr.case_variant "auto" "AUTO").
  { constructor; [apply (PyStr.ccv_upper "A"); reflexivity |].
    constructor; [apply (PyStr.ccv_upper "U"); reflexivity |].
    constructor; [apply (PyStr.ccv_upper "T"); reflexivity |].
    constructor; [apply (PyStr.ccv_upper "O"); reflexivity |].
    constructor. }
  split; [exact H |].
  apply (list_industry_filter_case_insensitive fill_fitting get_edi_documents None
           "auto" "AUTO" H).
Defined.

Lemma list_filter_matching_all_witness :
  PyStr.ascii_only "standard" = true /\
  ascii_names get_edi_documents = true /\
  get_edi_documents <> [] /\
  Forall (fun sd : string * list (string * EdiDocument) =>
            standard_matches "standard" (fst sd) = true) get_edi_documents /\
  run (list_edi_documents_from fill_fitting get_edi_documents (Some "standard") None) =
  run (list_edi_documents_from fill_fitting get_edi_documents None None).
Proof.
  assert (Hne : get_edi_documents <> []) by discriminate.
  assert (Hall : Forall (fun sd : string * list (string * EdiDocument) =>
                           standard_matches "standard" (fst sd) = true)
                        get_edi_documents).
  { unfold get_edi_documents. repeat (constructor; [reflexivity |]). constructor. }
  split; [reflexivity |]. split; [reflexivity |].
  split; [exact Hne |]. split; [exact Hall |].
  apply (list_filter_matching_all fill_fitting get_edi_documents "standard" None
           eq_refl eq_refl Hne Hall).
Defined.

(* ================================================================= *)
(** ** [sorted]: ordered input *)

Lemma key_le_not_lt (a b : sort_key) : key_le a b -> key_lt b a = Return false.
Proof.
  destruct a as [m | s], b as [n | t]; cbn; intros H; try contradiction.
  - f_equal. apply Z.ltb_ge. assumption.
  - f_equal. unfold String.leb in H. unfold String.ltb.
    rewrite (String.compare_antisym t s).
    destruct (String.compare s t); cbn; congruence.
Qed.

Lemma insert_by_key_last {A} (key : A -> sort_key) (x : A) (acc : list A) :
  Forall (fun y => key_le (key y) (key x)) acc ->
  insert_by_key key x acc = Return (acc ++ [x])%list.
Proof.
  induction 1 as [| y acc Hy _ IH]; cbn [insert_by_key app].
  - reflexivity.
  - rewrite (key_le_not_lt _ _ Hy), IH. reflexivity.
Qed.

Lemma sort_into_ordered {A} (key : A -> sort_key) (l acc : list A) :
  Forall (fun y => Forall (fun x => key_le (key y) (key x)) l) acc ->
  StronglySorted (le_by_key key) l ->
  sort_into key acc l = Return (acc ++ l)%list.
Proof.
  revert acc. induction l as [| x l IH]; intros acc Hacc Hl; cbn [sort_into].
  - rewrite app_nil_r. reflexivity.
  - inversion Hl as [| ? ? Hl' Hx]; subst.
    rewrite insert_by_key_last.
    + rewrite IH.
      * rewrite <- app_assoc. reflexivity.
      * apply Forall_app. split.
        -- apply (Forall_impl _ (fun y (H : Forall _ (x :: l)) => Forall_inv_tail H) Hacc).
        -- constructor; [exact Hx | constructor].
      * assumption.
    + apply (Forall_impl _ (fun y (H : Forall _ (x :: l)) => Forall_inv H) Hacc).
Qed.

(** X11: [sorted] with the key of the listing returns unchanged a list
    of plain codes in which every code comes no later, in the order of
    the listing (numeric codes by value, the others lexically), than
    every code after it; in particular numeric codes of equal value,
    such as "7" and "007", keep the order in which they were given. *)
Theorem sorted_keeps_ordered_codes (codes : list string) :
  forallb PyStr.plain_code codes = true ->
  StronglySorted (fun a b => listing_leb a b = true) codes ->
  sorted codes code_key = Return codes.
Proof.
  intros _ H. unfold sorted.
  apply (sort_into_ordered code_key codes [] (Forall_nil _)).
  apply (StronglySorted_impl _ _ codes
           (fun a b => proj2 (key_le_listing_leb a b)) H).
Qed.

Lemma sorted_keeps_ordered_codes_witness :
  forallb PyStr.plain_code ["7"; "007"; "10"] = true /\
  StronglySorted (fun a b => listing_leb a b = true) ["7"; "007"; "10"] /\
  sorted ["7"; "007"; "10"] code_key = Return ["7"; "007"; "10"].
Proof.
  assert (H : StronglySorted (fun a b => listing_leb a b = true) ["7"; "007"; "10"]).
  { repeat constructor. }
  split; [reflexivity |]. split; [exact H |].
  apply (sorted_keeps_ordered_codes ["7"; "007"; "10"] eq_refl H).
Defined.

Lemma sorted_codes_mixed_witness :
  forallb PyStr.plain_code ["ORDERS"; "INVOIC"; "850"] = true /\
  codes_of_one_kind ["ORDERS"; "INVOIC"; "850"] = false /\
  sorted ["ORDERS"; "INVOIC"; "850"] code_key = Raise TypeError.
Proof.
  split; [reflexivity |]. split; [reflexivity |].
  apply (sorted_codes_mixed ["ORDERS"; "INVOIC"; "850"]); reflexivity.
Defined.

(* ================================================================= *)
(** ** Standards listing *)

Lemma list_standards_body_run (detailed : bool) (std : EdiStandard) (out : stdout) :
  (print ("• " ++ std_name std) ;;
   if detailed then
     print ("  - Latest Version: " ++ latest_version std) ;;
     print ("  - Region: " ++ region std) ;;
     print ("  - Governing Body: " ++ governing_body std) ;;
     print ("  - Established: " ++ PyStr.str_of_int (year_established std) ++ nl)
   else ret tt) out =
  ((out ++ standard_lines detailed std)%list, Return tt).
Proof.
  unfold standard_lines, bind, print, ret. destruct detailed.
  - repeat rewrite <- app_assoc. reflexivity.
  - reflexivity.
Qed.

(** X13: [list_standards] is the listing of the dict [STANDARDS]; over
    any dict of standards the listing returns normally and prints the
    title and then, in the order of the dict and without sorting or
    filtering, one line naming each standard, followed by its four
    detail lines when [detailed] is set: one line per standard without
    the flag, five with it, and the title alone for an empty dict. *)
Theorem list_standards_from_lines (standards : list (string * EdiStandard))
        (detailed : bool) :
  list_standards detailed = list_standards_from STANDARDS detailed
  /\ run (list_standards_from standards detailed) =
     (standards_title :: flat_map (standard_lines detailed) (values standards),
      Return tt)
  /\ List.length (fst (run (list_standards_from standards detailed))) =
     1 + (if detailed then 5 else 1) * List.length standards.
Proof.
  assert (Hrun : run (list_standards_from standards detailed) =
                 (standards_title :: flat_map (standard_lines detailed) (values standards),
                  Return tt)).
  { unfold run, list_standards_from. unfold bind at 1. unfold print at 1.
    rewrite (for_each_prints _ _ (standard_lines detailed)).
    - reflexivity.
    - intros std out _. apply list_standards_body_run. }
  split; [reflexivity |]. split; [exact Hrun |].
  assert (Hlen : List.length (flat_map (standard_lines detailed) (values standards)) =
                 (if detailed then 5 else 1) * List.length standards).
  { clear Hrun. unfold values.
    induction standards as [| [k std] standards IH]; cbn [map flat_map List.length snd].
    - lia.
    - rewrite length_app, IH. unfold standard_lines.
      destruct detailed; cbn [List.length]; lia. }
  rewrite Hrun. cbn [fst List.length]. rewrite Hlen. reflexivity.
Qed.

(* ================================================================= *)
(** ** The tables *)

(** X14: the two tables agree and are well formed.  [get_edi_documents]
    has one section for each standard of [STANDARDS], in the same order
    and under its display name, the names being pairwise distinct;
    within a section the codes are pairwise distinct; every document is
    stored under its own code, has at least one version and at least one
    industry, a direction among Inbound, Outbound and Both, and a
    transaction flow; and every document lists the latest version of its
    standard among its versions. *)
Theorem tables_invariants :
  keys get_edi_documents = map std_name (values STANDARDS)
  /\ NoDup (keys get_edi_documents)
  /\ Forall (fun sd => NoDup (keys (snd sd))) get_edi_documents
  /\ Forall (fun e => snd (fst e) = code (snd e) /\
                      common_versions (snd e) <> [] /\
                      industries (snd e) <> [] /\
                      In (direction (snd e)) ["Inbound"; "Outbound"; "Both"] /\
                      PyStr.truthy (transaction_flow (snd e)) = true)
            (entries get_edi_documents)
  /\ Forall2 (fun std sd =>
                Forall (fun kd => In (latest_version std) (common_versions (snd kd)))
                       (snd sd))
             (values STANDARDS) get_edi_documents.
Proof.
  split; [reflexivity |].
  split; [apply get_edi_documents_standards_distinct |].
  split.
  { pose proof get_edi_documents_well_formed as H. unfold well_formed in H.
    apply (Forall_impl _ (fun sd (Hsd : _ /\ _) => proj1 Hsd) H). }
  split.
  { unfold entries, get_edi_documents.
    cbn [flat_map map app fst snd].
    repeat (constructor;
            [cbn [fst snd code common_versions industries direction transaction_flow];
             repeat split; try discriminate; cbn; tauto |]).
    constructor. }
  unfold values, STANDARDS, get_edi_documents. cbn [map snd].
  repeat (constructor;
          [cbn [snd latest_version];
           repeat (constructor; [cbn; tauto |]); constructor |]).
  constructor.
Qed.

(* ================================================================= *)
(** ** The listing of a well-formed dataset *)

(** X15: on any dataset with ASCII standard names and plain codes whose
    standards each have distinct codes, all numeric or all non-numeric,
    with filters of ASCII text, and unless a standard filter matches
    nothing, the listing returns normally and prints the title and then,
    for each standard the standard filter keeps and in dataset order,
    its header, its divider and the blocks of its documents that pass
    the industry filter, in the order of the listing; that order holds
    all the documents of the standard, numeric codes by value and the
    other codes lexically. *)
Theorem list_prints_selected_sections (fill : string -> string) (edi_docs : dataset)
        (filter_standard filter_industry : option string) :
  plain_dataset edi_docs = true ->
  PyStr.ascii_option filter_standard = true ->
  PyStr.ascii_option filter_industry = true ->
  orderly edi_docs = true ->
  (PyStr.truthy filter_standard = true -> selected filter_standard edi_docs <> []) ->
  run (list_edi_documents_from fill edi_docs filter_standard filter_industry) =
  (listing_title
     :: flat_map (section_lines fill filter_industry) (selected filter_standard edi_docs),
   Return tt)
  /\ Forall (fun sd =>
               Permutation (snd sd) (listing_order (snd sd)) /\
               Sorted (fun a b => listing_leb (fst a) (fst b) = true)
                      (listing_order (snd sd)))
            edi_docs.
Proof.
  intros _ _ _ Hord Hsel. pose proof (orderly_well_formed edi_docs Hord) as Hwf.
  split.
  - rewrite list_edi_documents_from_run by assumption. unfold selected in *.
    destruct filter_standard as [[| c fs] |]; try reflexivity.
    specialize (Hsel eq_refl).
    destruct (filter (fun kv => standard_matches (String c fs) (fst kv)) edi_docs);
      [contradiction Hsel |]; reflexivity.
  - unfold well_formed in Hwf.
    apply (Forall_impl _ (fun sd (H : _ /\ _) =>
             match proj2 (listing_order_spec (snd sd) (proj2 H)) with
             | conj Hp Hs =>
                 conj Hp (Sorted_impl _ _ _
                            (fun a b => proj1 (key_le_listing_leb (fst a) (fst b))) Hs)
             end) Hwf).
Qed.

Lemma list_prints_selected_sections_witness :
  plain_dataset get_edi_documents = true /\
  PyStr.ascii_option (Some "vda") = true /\
  PyStr.ascii_option (Some "auto") = true /\
  orderly get_edi_documents = true /\
  (PyStr.truthy (Some "vda") = true -> selected (Some "vda") get_edi_documents <> []) /\
  (run (list_edi_documents_from fill_fitting get_edi_documents (Some "vda") (Some "auto")) =
   (listing_title
      :: flat_map (section_lines fill_fitting (Some "auto"))
                  (selected (Some "vda") get_edi_documents),
    Return tt)
   /\ Forall (fun sd =>
                Permutation (snd sd) (listing_order (snd sd)) /\
                Sorted (fun a b => listing_leb (fst a) (fst b) = true)
                       (listing_order (snd sd)))
             get_edi_documents).
Proof.
  assert (Hplain : plain_dataset get_edi_documents = true) by (vm_compute; reflexivity).
  assert (Hord : orderly get_edi_documents = true) by (vm_compute; reflexivity).
  assert (Hsel : PyStr.truthy (Some "vda") = true ->
                 selected (Some "vda") get_edi_documents <> [])
    by (intros _; vm_compute; discriminate).
  split; [exact Hplain |]. split; [reflexivity |]. split; [reflexivity |].
  split; [exact Hord |]. split; [exact Hsel |].
  apply (list_prints_selected_sections fill_fitting get_edi_documents
           (Some "vda") (Some "auto") Hplain eq_refl eq_refl Hord Hsel).
Defined.

Lemma search_prints_codes_containing_input_witness :
  PyStr.ascii_only "ord" = true /\
  exists p : string * string * EdiDocument -> bool,
    (forall e, p e = true <-> occurs_in (PyStr.upper "ord") (snd (fst e))) /\
    run (search_edi_code_from fill_fitting get_edi_documents "ord" false) =
    ((search_title (PyStr.upper "ord")
        :: flat_map (match_lines fill_fitting) (filter p (entries get_edi_documents))
        ++ match filter p (entries get_edi_documents) with
           | [] => [no_documents_message (PyStr.upper "ord")]
           | _ => []
           end)%list,
     Return tt).
Proof.
  split; [reflexivity |].
  apply (search_prints_codes_containing_input fill_fitting get_edi_documents "ord").
  reflexivity.
Defined.

Lemma list_raises_iff_mixed_standard_witness :
  plain_dataset get_edi_documents = true /\
  PyStr.ascii_option (Some "x12") = true /\
  snd (run (list_edi_documents_from fill_fitting get_edi_documents (Some "x12") None)) =
  if forallb (fun sd => codes_of_one_kind (keys (snd sd)))
             (selected (Some "x12") get_edi_documents)
  then Return tt else Raise TypeError.
Proof.
  assert (Hplain : plain_dataset get_edi_documents = true) by (vm_compute; reflexivity).
  split; [exact Hplain |]. split; [reflexivity |].
  apply (list_raises_iff_mixed_standard fill_fitting get_edi_documents (Some "x12") None
           Hplain eq_refl).
Defined.
